(** * cepik_client: a shallow embedding of [cepik_client.py]

    The client talks to the moj.gov.pl vehicle-history service through one
    shared [requests] session.  Each Python function is embedded as a
    computation in a small state-and-exception monad over a [world] that
    holds the Python heap of cookie dictionaries (so that aliasing between
    [session] and [cookies] is visible), the wall clock, the remote server,
    the log of the calls made through the shared session, and standard
    output. *)

From Stdlib Require Import ZArith Lia.
From Stdlib Require Import Floats.SpecFloat.
From stdpp Require Import base tactics option list strings pretty gmap.

Local Open Scope string_scope.
Local Open Scope Z_scope.
Local Set Warnings "-register-all".

(** ** Python values *)

(** A Python [dict] keeps its keys in insertion order; it is held as an
    association list in that order, read by first match. *)
Definition dict (V : Type) : Type := list (string * V).

Fixpoint dict_get {V} (k : string) (d : dict V) : option V :=
  match d with
  | [] => None
  | (k', v) :: d' => if String.eqb k k' then Some v else dict_get k d'
  end.

(** [d[k] = v]: overwrite in place when the key is there, append otherwise. *)
Fixpoint dict_set {V} (k : string) (v : V) (d : dict V) : dict V :=
  match d with
  | [] => [(k, v)]
  | (k', v') :: d' =>
      if String.eqb k k' then (k', v) :: d' else (k', v') :: dict_set k v d'
  end.

(** [k in d] *)
Definition dict_mem {V} (k : string) (d : dict V) : bool :=
  match dict_get k d with Some _ => true | None => false end.

(** [d.keys()], in iteration order *)
Definition dict_keys {V} (d : dict V) : list string := map fst d.

(** The value [r.json()] parses the body into. *)
Inductive json : Type :=
  | JNull
  | JBool (b : bool)
  | JNum (literal : string)
  | JStr (s : string)
  | JArr (items : list json)
  | JObj (fields : list (string * json)).

(** Python floats are IEEE-754 binary64 values. *)
Definition float : Type := spec_float.
Definition float_mul : float -> float -> float := SFmul 53 1024.
(** conversion of an [int] operand in mixed arithmetic *)
Definition float_of_int (z : Z) : float := binary_normalize 53 1024 z 0 false.

(** ** Exceptions and outcomes *)

Inductive exn : Type :=
  | Exception (msg : string)        (* [raise Exception(msg)] in the client *)
  | KeyError (key : string)         (* subscript of a missing dict key *)
  | TypeError                       (* [in] on a value that is no container *)
  | ValueError                      (* [round] of a NaN, body that is not JSON *)
  | OverflowError                   (* [round] of an infinity *)
  | SystemError.                    (* a reference to no object *)

(** The class an exception object is an instance of. *)
Definition exn_class (e : exn) : string :=
  match e with
  | Exception _ => "Exception"
  | KeyError _ => "KeyError"
  | TypeError => "TypeError"
  | ValueError => "ValueError"
  | OverflowError => "OverflowError"
  | SystemError => "SystemError"
  end.

(** [e.args]: what the exception object carries. *)
Definition exn_args (e : exn) : list string :=
  match e with
  | Exception msg => [msg]
  | KeyError key => [key]
  | _ => []
  end.

Inductive outcome (A : Type) : Type :=
  | Returns (a : A)
  | Raises (e : exn).
Arguments Returns {A} a.
Arguments Raises {A} e.

(** ** The world *)

Inductive http_method := GET | POST.

Inductive payload : Type :=
  | NoPayload
  | FormData (data : string)              (* [data=...] *)
  | JsonData (fields : dict string).      (* [json=...] *)

(** One call made through the shared session [s]: the arguments the
    client passes to [s.get] / [s.post]. *)
Record request : Type := {
  req_method : http_method;
  req_url : string;
  req_headers : option (dict string);
  req_cookies : option (dict string);
  req_payload : payload
}.

(** What the client reads off the response object [r]. *)
Record response : Type := {
  status_code : Z;
  resp_cookies : dict string;     (* [r.cookies.get_dict()] *)
  resp_json : option json         (* [r.json()]; [None]: the body is not JSON *)
}.

Definition loc : Type := nat.

Record world : Type := {
  heap : gmap loc (dict string);              (* the dict objects *)
  clock : nat -> float;                       (* successive [time.time()] readings *)
  clock_reads : nat;                          (* readings taken so far *)
  server : list request -> request -> response;  (* reply, given the earlier calls *)
  sent : list request;                        (* calls made so far, oldest first *)
  stdout : list string
}.

Definition set_heap (h : gmap loc (dict string)) (w : world) : world :=
  {| heap := h; clock := clock w; clock_reads := clock_reads w;
     server := server w; sent := sent w; stdout := stdout w |}.

(** one more clock reading taken *)
Definition tick (w : world) : world :=
  {| heap := heap w; clock := clock w; clock_reads := S (clock_reads w);
     server := server w; sent := sent w; stdout := stdout w |}.

(** one more call on the log *)
Definition log_call (rq : request) (w : world) : world :=
  {| heap := heap w; clock := clock w; clock_reads := clock_reads w;
     server := server w; sent := sent w ++ [rq]; stdout := stdout w |}.

(** one more line on standard output *)
Definition write_line (line : string) (w : world) : world :=
  {| heap := heap w; clock := clock w; clock_reads := clock_reads w;
     server := server w; sent := sent w; stdout := stdout w ++ [line] |}.

(** ** The monad of client computations *)

Definition M (A : Type) : Type := world -> outcome A * world.

Definition ret {A} (a : A) : M A := fun w => (Returns a, w).
Definition raise {A} (e : exn) : M A := fun w => (Raises e, w).
(** a pure step that may raise *)
Definition lift {A} (o : outcome A) : M A := fun w => (o, w).
Definition bind {A B} (c : M A) (k : A -> M B) : M B :=
  fun w => match c w with
           | (Returns a, w') => k a w'
           | (Raises e, w') => (Raises e, w')
           end.

#[global] Instance M_ret : MRet M := @ret.
#[global] Instance M_bind : MBind M := fun A B k c => bind c k.

(** [for x in xs: body(x)] *)
Fixpoint for_each {A} (xs : list A) (body : A -> M unit) : M unit :=
  match xs with
  | [] => ret tt
  | x :: xs' => body x ;; for_each xs' body
  end.

(** *** Primitive effects *)

(** [time.time()] *)
Definition time_time : M float :=
  fun w => (Returns (clock w (clock_reads w)), tick w).

(** [print(line)] *)
Definition print (line : string) : M unit :=
  fun w => (Returns tt, write_line line w).

(** the dict object a reference points to *)
Definition load (l : loc) : M (dict string) :=
  fun w => match heap w !! l with
           | Some d => (Returns d, w)
           | None => (Raises SystemError, w)
           end.

(** a new dict object *)
Definition new_dict (d : dict string) : M loc :=
  fun w => let l := fresh (dom (heap w)) in
           (Returns l, set_heap (<[l := d]> (heap w)) w).

(** [d[k]] on a dict value *)
Definition subscript (d : dict string) (k : string) : M string :=
  match dict_get k d with
  | Some v => ret v
  | None => raise (KeyError k)
  end.

(** [l[k]] on a dict object *)
Definition getitem (l : loc) (k : string) : M string :=
  d ← load l; subscript d k.

(** the dict object at [l] becomes [d] *)
Definition store (l : loc) (d : dict string) : M unit :=
  fun w => (Returns tt, set_heap (<[l := d]> (heap w)) w).

(** [l[k] = v] on a dict object *)
Definition setitem (l : loc) (k v : string) : M unit :=
  d ← load l; store l (dict_set k v d).

(** [list(l.keys())] *)
Definition keys_of (l : loc) : M (list string) :=
  d ← load l; ret (dict_keys d).

(** One exchange with the server, which answers knowing the earlier calls.
    Every call is answered: the client sets no timeout and handles no
    transport error, and none is modelled. *)
Definition exchange (rq : request) : M response :=
  fun w => (Returns (server w (sent w) rq), log_call rq w).

(** The [cookies=] argument: the request goes out with the cookies the
    dict holds at that moment. *)
Definition cookies_arg (cookies : option loc) : M (option (dict string)) :=
  match cookies with
  | Some l => d ← load l; ret (Some d)
  | None => ret None
  end.

Definition send (m : http_method) (url : string) (headers : option (dict string))
    (cookies : option loc) (body : payload) : M response :=
  cs ← cookies_arg cookies;
  exchange {| req_method := m; req_url := url; req_headers := headers;
              req_cookies := cs; req_payload := body |}.

(** [s.get(url, headers=..., cookies=...)] *)
Definition s_get url headers cookies : M response :=
  send GET url headers cookies NoPayload.

(** [s.post(url, headers=..., cookies=..., data=... / json=...)] *)
Definition s_post url headers cookies body : M response :=
  send POST url headers cookies body.

(** [r.json()] *)
Definition r_json (r : response) : M json :=
  match resp_json r with
  | Some j => ret j
  | None => raise ValueError
  end.

(** [key in v] for a string [key] *)
Fixpoint is_substring (key s : string) : bool :=
  String.prefix key s ||
  match s with
  | EmptyString => false
  | String _ s' => is_substring key s'
  end.

Definition py_in (key : string) (v : json) : M bool :=
  match v with
  | JObj fields => ret (dict_mem key fields)
  | JArr items =>
      ret (existsb (fun x => match x with JStr s => String.eqb key s | _ => false end) items)
  | JStr s => ret (is_substring key s)
  | JNull | JBool _ | JNum _ => raise TypeError
  end.

(** ** Numbers *)

(** [round(x)] for a float: nearest integer, ties to even. *)
Definition round_half_even (n d : Z) : Z :=
  let q := n / d in
  let r := n mod d in
  match 2 * r ?= d with
  | Lt => q
  | Gt => q + 1
  | Eq => if Z.even q then q else q + 1
  end.

Definition py_round (x : float) : outcome Z :=
  match x with
  | S754_zero _ => Returns 0
  | S754_infinity _ => Raises OverflowError
  | S754_nan => Raises ValueError
  | S754_finite s m e =>
      let a := if (0 <=? e)%Z then Z.pos m * 2 ^ e
               else round_half_even (Z.pos m) (2 ^ (- e)) in
      Returns (if s then - a else a)
  end.

(** [str(n)] / [f"{n}"] for an [int] *)
Definition str_int (n : Z) : string := pretty n.

(** ** The client *)

Definition entry_url : string :=
  "https://moj.gov.pl/uslugi/engine/ng/index?xFormsAppName=HistoriaPojazdu".
Definition close_url : string :=
  "https://moj.gov.pl/nforms/api/HistoriaPojazdu/1.0.17/close".
Definition vehicle_data_url : string :=
  "https://moj.gov.pl/nforms/api/HistoriaPojazdu/1.0.17/data/vehicle-data".
Definition timeline_data_url : string :=
  "https://moj.gov.pl/nforms/api/HistoriaPojazdu/1.0.17/data/timeline-data".

(** [int(round(t * 1000))] for a clock reading [t] *)
Definition milliseconds (t : float) : outcome Z :=
  py_round (float_mul t (float_of_int 1000)).

(** [int(round(time.time() * 1000))] *)
Definition get_current_time : M Z :=
  t ← time_time;
  lift (milliseconds t).

Definition create_session : M loc :=
  r ← s_get entry_url None None;
  if (status_code r =? 200)%Z then
    response_cookies ← new_dict (resp_cookies r);
    ret response_cookies
  else
    raise (Exception ("Failed to create session, status code: " +:+ str_int (status_code r))).

(** the session identifier built from the clock reading *)
Definition nfwid_of (current_time : Z) : string :=
  "HistoriaPojazdu:" +:+ str_int current_time.

Definition authenticate_headers : dict string :=
  [("Accept-Language", "pl-PL,pl;q=0.9");
   ("Content-Type", "application/x-www-form-urlencoded")].

(** first loop: [for cookie in response_cookies: cookies[cookie] = response_cookies[cookie]] *)
Definition copy_response_cookies (cookies : loc) (response_cookies : dict string) : M unit :=
  for_each (dict_keys response_cookies) (fun cookie =>
    v ← subscript response_cookies cookie;
    setitem cookies cookie v).

(** second loop: [for cookie_key in session.keys():
                    if cookie_key not in response_cookies:
                      cookies[cookie_key] = session[cookie_key]]
    The keys are taken when the loop starts; the body only assigns to keys
    that are there, which changes neither the keys nor their order
    ([dict_keys_set_present]). *)
Definition restore_absent_cookies (session cookies : loc) (response_cookies : dict string)
    : M unit :=
  ks ← keys_of session;
  for_each ks (fun cookie_key =>
    if negb (dict_mem cookie_key response_cookies) then
      v ← getitem session cookie_key;
      setitem cookies cookie_key v
    else ret tt).

Definition authenticate_session (session : loc) : M (loc * string) :=
  current_time ← get_current_time;
  let nfwid := nfwid_of current_time in
  let cookies := session in
  let data := "NF_WID=" +:+ nfwid in
  r ← s_post entry_url (Some authenticate_headers) (Some cookies) (FormData data);
  if (status_code r =? 200)%Z then
    let response_cookies := resp_cookies r in
    copy_response_cookies cookies response_cookies ;;
    restore_absent_cookies session cookies response_cookies ;;
    ret (cookies, nfwid)
  else
    raise (Exception ("Failed to authenticate session, status code: " +:+ str_int (status_code r))).

Definition close_headers (nf_wid : string) : dict string :=
  [("Accept-Language", "pl-PL,pl;q=0.9");
   ("Content-Type", "application/json, text/plain, */*");
   ("Nf_wid", nf_wid)].

Definition close_session (session : loc) (nf_wid : string) : M unit :=
  let cookies := session in
  r ← s_get close_url (Some (close_headers nf_wid)) (Some cookies);
  if (status_code r =? 200)%Z then
    print "Session closed successfully."
  else
    raise (Exception ("Failed to close session, status code: " +:+ str_int (status_code r))).

Definition fetch_headers (xsrf nf_wid : string) : dict string :=
  [("Accept-Language", "pl-PL,pl;q=0.9");
   ("Content-Type", "application/json");
   ("X-Xsrf-Token", xsrf);
   ("Nf_wid", nf_wid)].

Definition query_body (registration_number vin_number first_registration_date : string)
    : dict string :=
  [("registrationNumber", registration_number);
   ("VINNumber", vin_number);
   ("firstRegistrationDate", first_registration_date)].

Definition get_vehicle_data (session : loc)
    (nf_wid registration_number vin_number first_registration_date : string) : M json :=
  let cookies := session in
  xsrf ← getitem session "XSRF-TOKEN";
  let headers := fetch_headers xsrf nf_wid in
  let data := query_body registration_number vin_number first_registration_date in
  r ← s_post vehicle_data_url (Some headers) (Some cookies) (JsonData data);
  if (status_code r =? 200)%Z then
    response_data ← r_json r;
    present ← py_in "technicalData" response_data;
    if (present : bool) then ret response_data
    else raise (Exception "Technical data not found in the response.")
  else
    raise (Exception ("Failed to get vehicle data, status code: " +:+ str_int (status_code r))).

Definition get_timeline_data (session : loc)
    (nf_wid registration_number vin_number first_registration_date : string) : M json :=
  let cookies := session in
  xsrf ← getitem session "XSRF-TOKEN";
  let headers := fetch_headers xsrf nf_wid in
  let data := query_body registration_number vin_number first_registration_date in
  r ← s_post timeline_data_url (Some headers) (Some cookies) (JsonData data);
  if (status_code r =? 200)%Z then
    response_data ← r_json r;
    present ← py_in "timelineData" response_data;
    if (present : bool) then ret response_data
    else raise (Exception "Timeline data not found in the response.")
  else
    raise (Exception ("Failed to get timeline data, status code: " +:+ str_int (status_code r))).

(** ** The scenario of the specification *)

(** Initiate, authenticate, fetch the vehicle data, close; an exception
    ends the run where it is raised. *)
Definition end_to_end (registration_number vin_number first_registration_date : string)
    : M json :=
  session ← create_session;
  '(cookies, nf_wid) ← authenticate_session session;
  vehicle_data ← get_vehicle_data cookies nf_wid registration_number vin_number
                   first_registration_date;
  close_session cookies nf_wid;;
  ret vehicle_data.

(** * Specification vocabulary *)

(** ** Cookie merge, as functions on dicts *)

(** Python's [d.update(new)]: every item of [new] is assigned into [d],
    in order, so a key of [new] overwrites and every other key stays. *)
Definition dict_update {V} (d new : dict V) : dict V :=
  fold_left (fun acc kv => dict_set kv.1 kv.2 acc) new d.

(** What the first loop of [authenticate_session] builds, key by key. *)
Definition copy_keys {V} (new : dict V) (ks : list string) (d : dict V) : dict V :=
  fold_left (fun acc k => match dict_get k new with
                          | Some v => dict_set k v acc
                          | None => acc
                          end) ks d.

(** ** The calls the steps make *)

(** the GET the initiator sends *)
Definition create_request : request :=
  {| req_method := GET; req_url := entry_url; req_headers := None;
     req_cookies := None; req_payload := NoPayload |}.

(** the form-encoded POST the authenticator sends *)
Definition authenticate_request (cookies : dict string) (current_time : Z) : request :=
  {| req_method := POST; req_url := entry_url;
     req_headers := Some authenticate_headers;
     req_cookies := Some cookies;
     req_payload := FormData ("NF_WID=" +:+ nfwid_of current_time) |}.

(** the JSON POST a data fetcher sends *)
Definition fetch_request (url : string) (cookies : dict string)
    (xsrf nf_wid registration_number vin_number first_registration_date : string) : request :=
  {| req_method := POST; req_url := url;
     req_headers := Some (fetch_headers xsrf nf_wid);
     req_cookies := Some cookies;
     req_payload := JsonData (query_body registration_number vin_number
                                first_registration_date) |}.

(** the GET the closer sends *)
Definition close_request (cookies : dict string) (nf_wid : string) : request :=
  {| req_method := GET; req_url := close_url;
     req_headers := Some (close_headers nf_wid);
     req_cookies := Some cookies; req_payload := NoPayload |}.

(** the part of the two fetch URLs before the endpoint path *)
Definition api_root : string := "https://moj.gov.pl/nforms/api/HistoriaPojazdu/1.0.17/".

(** the calls made between two worlds *)
Definition calls_during (w w' : world) : list request :=
  drop (length (sent w)) (sent w').

(** ** Reading a failure *)

(** the error kinds the specification names *)
Definition taxonomy : list string :=
  ["SessionCreationError"; "AuthenticationError"; "FetchError";
   "MissingFieldError"; "SessionClosureError"].

(** [c] fails in [w] with an exception of class [kind]. *)
Definition raises_kind {A} (c : M A) (w : world) (kind : string) : Prop :=
  ∃ e, (c w).1 = Raises e ∧ exn_class e = kind.

(** [datum] occurs in the text the exception carries. *)
Definition mentions (datum : string) (e : exn) : bool :=
  existsb (is_substring datum) (exn_args e).

(** ** Doubles as integers *)

(** A time after the epoch: a valid double, finite and positive, and
    below [2^1013] seconds, so that a thousand times it is a double too. *)
Definition is_time (t : float) : bool :=
  match t with
  | S754_finite false _ e => valid_binary 53 1024 t && (e <=? 960)
  | _ => false
  end.

(** The double [m * 2^e], counted in units of [2^-1074], the smallest
    positive double. *)
Definition in_ulps (m : positive) (e : Z) : Z := Z.pos m * 2 ^ (e + 1074).

(** The product of a double and [1000.0 = 8796093022208000 * 2^-43] is a
    whole number of units of [2^-scale]. *)
Definition scale : Z := 1117.

(** The double nearest to [P] units of [2^-scale], in the same unit:
    [P] is rounded, ties to even, to 53 significant bits, and to no finer
    than [2^-1074]. *)
Definition nearest_double (P : Z) : Z :=
  let n := Z.max (Z.log2 P + 1 - 53) 43 in
  round_half_even P (2 ^ n) * 2 ^ n.

(** ** Sample worlds *)

(** [time.time() = 1790742856.4392455] *)
Definition sample_reading : float := S754_finite false 7510919925734553 (-22).

(** a second reading, a little over a millisecond later:
    [time.time() = 1790742856.440501] *)
Definition later_reading : float := S754_finite false 7510919925739819 (-22).

Definition set_clock (t : float) (w : world) : world :=
  {| heap := heap w; clock := fun _ => t; clock_reads := clock_reads w;
     server := server w; sent := sent w; stdout := stdout w |}.

(** old cookies [{A:1, B:2}], a 200 response that sets [{B:3, C:4}] *)
Definition merge_world : world :=
  {| heap := {[ 0%nat := [("A", "1"); ("B", "2")] ]};
     clock := fun _ => sample_reading; clock_reads := 0;
     server := fun _ _ => {| status_code := 200;
                             resp_cookies := [("B", "3"); ("C", "4")];
                             resp_json := None |};
     sent := []; stdout := [] |}.

(** a server that answers every call with the same status and no cookies *)
Definition status_world (status : Z) (cookies : dict string) : world :=
  {| heap := {[ 0%nat := cookies ]};
     clock := fun _ => sample_reading; clock_reads := 0;
     server := fun _ _ => {| status_code := status; resp_cookies := [];
                             resp_json := None |};
     sent := []; stdout := [] |}.

(** a server that answers 200 with an empty JSON object *)
Definition empty_object_world : world :=
  {| heap := {[ 0%nat := [("XSRF-TOKEN", "f3a1")] ]};
     clock := fun _ => sample_reading; clock_reads := 0;
     server := fun _ _ => {| status_code := 200; resp_cookies := [];
                             resp_json := Some (JObj []) |};
     sent := []; stdout := [] |}.

(** a server that answers 200 with an object that has both keys *)
Definition data_world : world :=
  {| heap := {[ 0%nat := [("XSRF-TOKEN", "f3a1")] ]};
     clock := fun _ => sample_reading; clock_reads := 0;
     server := fun _ _ =>
       {| status_code := 200; resp_cookies := [];
          resp_json := Some (JObj [("technicalData", JObj [("brand", JStr "HONDA")]);
                                   ("timelineData", JArr [])]) |};
     sent := []; stdout := [] |}.

(** a portal that answers 200 throughout, sets a session cookie on GET and
    the XSRF token on POST, and serves vehicle data *)
Definition portal_world : world :=
  {| heap := ∅;
     clock := fun _ => sample_reading; clock_reads := 0;
     server := fun _ rq =>
       {| status_code := 200;
          resp_cookies := match req_method rq with
                          | GET => [("NFJSESSIONID", "9c2e")]
                          | POST => [("XSRF-TOKEN", "f3a1")]
                          end;
          resp_json := if String.eqb (req_url rq) vehicle_data_url
                       then Some (JObj [("technicalData", JObj [("brand", JStr "HONDA")])])
                       else None |};
     sent := []; stdout := [] |}.

(** a server that answers 200 with the given cookies and body, to a client
    that holds the cookies [old] *)
Definition reply_world (old resp : dict string) (body : option json) : world :=
  {| heap := {[ 0%nat := old ]};
     clock := fun _ => sample_reading; clock_reads := 0;
     server := fun _ _ => {| status_code := 200; resp_cookies := resp;
                             resp_json := body |};
     sent := []; stdout := [] |}.

(** ** Frames *)

(** [c] changes no dict object and takes no clock reading. *)
Definition keeps_dicts {A} (c : M A) : Prop :=
  ∀ w, heap (c w).2 = heap w ∧ clock_reads (c w).2 = clock_reads w.

(** * Verification *)

(** ** Dictionaries: reading after writing *)

Section DictFacts.
Context {V : Type}.
Implicit Types (d : dict V) (k : string) (v : V).

Lemma dict_get_set_eq k v d : dict_get k (dict_set k v d) = Some v.
Proof.
  induction d as [|[k' v'] d IH]; simpl.
  - by rewrite String.eqb_refl.
  - destruct (String.eqb k k') eqn:E; simpl; rewrite E; done.
Qed.

Lemma dict_get_set_ne k k' v d :
  k ≠ k' → dict_get k' (dict_set k v d) = dict_get k' d.
Proof.
  intros Hne. induction d as [|[k0 v0] d IH]; simpl.
  - destruct (String.eqb_spec k' k); congruence.
  - destruct (String.eqb_spec k k0) as [->|]; simpl.
    + destruct (String.eqb_spec k' k0); congruence.
    + by rewrite IH.
Qed.

Lemma dict_get_set k k' v d :
  dict_get k' (dict_set k v d) = if String.eqb k' k then Some v else dict_get k' d.
Proof.
  destruct (String.eqb_spec k' k) as [->|Hne].
  - apply dict_get_set_eq.
  - apply dict_get_set_ne. congruence.
Qed.

(** Writing back the value a key already has leaves the dict as it is. *)
Lemma dict_set_same k v d : dict_get k d = Some v → dict_set k v d = d.
Proof.
  induction d as [|[k' v'] d IH]; simpl; [done|].
  destruct (String.eqb_spec k k') as [->|]; intros H.
  - congruence.
  - by rewrite IH.
Qed.

(** Assigning to a key that is there neither adds nor moves a key, so a
    loop over [d.keys()] that only does that sees the keys it started with. *)
Lemma dict_keys_set_present k v d :
  dict_mem k d = true → dict_keys (dict_set k v d) = dict_keys d.
Proof.
  unfold dict_mem, dict_keys.
  induction d as [|[k' v'] d IH]; simpl; [done|].
  destruct (String.eqb_spec k k') as [->|]; simpl; [done|].
  intros H. by rewrite IH.
Qed.

Lemma dict_get_keys k d : k ∈ dict_keys d → is_Some (dict_get k d).
Proof.
  unfold dict_keys. induction d as [|[k' v'] d IH]; simpl.
  - intros H. by apply elem_of_nil in H.
  - intros H. destruct (String.eqb_spec k k'); [by eexists|].
    apply elem_of_cons in H as [?|?]; [done|by apply IH].
Qed.

Lemma dict_mem_true k d : dict_mem k d = true ↔ is_Some (dict_get k d).
Proof.
  unfold dict_mem. destruct (dict_get k d); split; intros H; done.
Qed.
End DictFacts.

(** Reading the dict built from the keys [ks] of [new]. *)
Lemma copy_keys_get {V} (new : dict V) ks d k :
  dict_get k (copy_keys new ks d) =
    if bool_decide (k ∈ ks) then
      match dict_get k new with Some v => Some v | None => dict_get k d end
    else dict_get k d.
Proof.
  unfold copy_keys. revert d. induction ks as [|k0 ks IH]; intros d; cbn [fold_left].
  - case_bool_decide as H; [by apply elem_of_nil in H|done].
  - rewrite IH. destruct (decide (k = k0)) as [->|Hne].
    + rewrite (bool_decide_eq_true_2 (k0 ∈ k0 :: ks)) by (apply elem_of_cons; by left).
      destruct (dict_get k0 new) as [v|] eqn:E.
      * rewrite dict_get_set_eq. by destruct (bool_decide _).
      * by destruct (bool_decide _).
    + assert (bool_decide (k ∈ k0 :: ks) = bool_decide (k ∈ ks)) as ->.
      { apply bool_decide_ext. rewrite elem_of_cons.
        split; [intros [?|?]; [congruence|done]|auto]. }
      destruct (dict_get k0 new) as [v|]; [|done].
      by rewrite dict_get_set_ne.
Qed.

(** The merged dict read by key: the response wins, the rest is kept. *)
Lemma copy_keys_all_get {V} (new d : dict V) k :
  dict_get k (copy_keys new (dict_keys new) d) =
    match dict_get k new with Some v => Some v | None => dict_get k d end.
Proof.
  rewrite copy_keys_get. case_bool_decide as Hin; [done|].
  destruct (dict_get k new) as [v|] eqn:E; [|done].
  exfalso. apply Hin. clear Hin. unfold dict_keys.
  induction new as [|[k' v'] new IH]; simpl in *; [done|].
  apply elem_of_cons.
  destruct (String.eqb_spec k k') as [->|]; [by left|right; auto].
Qed.

(** On a dict whose keys are distinct (every Python dict), copying key by
    key is [update]. *)
Lemma copy_keys_update {V} (new d : dict V) :
  NoDup (dict_keys new) → copy_keys new (dict_keys new) d = dict_update d new.
Proof.
  unfold copy_keys, dict_update, dict_keys.
  assert (G : ∀ (pre new : dict V) d, NoDup (map fst (pre ++ new)%list) →
    fold_left (fun acc k => match dict_get k (pre ++ new)%list with
                            | Some v => dict_set k v acc | None => acc end)
      (map fst new) d
    = fold_left (fun acc kv => dict_set kv.1 kv.2 acc) new d).
  { clear. intros pre new. revert pre.
    induction new as [|[k v] new IH]; intros pre d Hnd; simpl; [done|].
    assert (dict_get k (pre ++ (k, v) :: new)%list = Some v) as ->.
    { clear IH. induction pre as [|[k' v'] pre IHp]; simpl.
      - by rewrite String.eqb_refl.
      - simpl in Hnd. apply NoDup_cons in Hnd as [Hk' Hnd].
        destruct (String.eqb_spec k k') as [->|]; [|by apply IHp].
        exfalso. apply Hk'. rewrite map_app. apply elem_of_app. right.
        apply elem_of_cons. by left. }
    specialize (IH (pre ++ [(k, v)])%list). rewrite <- app_assoc in IH. simpl in IH.
    by apply IH. }
  intros Hnd. apply (G [] new d Hnd).
Qed.

(** ** Running computations *)

Lemma bind_run {A B} (c : M A) (k : A → M B) (w : world) :
  (c ≫= k) w = match c w with
               | (Returns a, w') => k a w'
               | (Raises e, w') => (Raises e, w')
               end.
Proof. reflexivity. Qed.

Lemma bind_returns {A B} (c : M A) (k : A → M B) w a w' :
  c w = (Returns a, w') → (c ≫= k) w = k a w'.
Proof. intros H. by rewrite bind_run, H. Qed.

Lemma set_heap_same w : set_heap (heap w) w = w.
Proof. by destruct w. Qed.

Lemma load_run w l d : heap w !! l = Some d → load l w = (Returns d, w).
Proof. intros H. unfold load. by rewrite H. Qed.

Lemma getitem_run w l d k v :
  heap w !! l = Some d → dict_get k d = Some v → getitem l k w = (Returns v, w).
Proof.
  intros Hl Hk. unfold getitem. rewrite (bind_returns _ _ _ _ _ (load_run _ _ _ Hl)).
  unfold subscript. by rewrite Hk.
Qed.

Lemma getitem_missing w l d k :
  heap w !! l = Some d → dict_get k d = None → getitem l k w = (Raises (KeyError k), w).
Proof.
  intros Hl Hk. unfold getitem. rewrite (bind_returns _ _ _ _ _ (load_run _ _ _ Hl)).
  unfold subscript. by rewrite Hk.
Qed.

Lemma setitem_run w l d k v :
  heap w !! l = Some d →
  setitem l k v w = (Returns tt, set_heap (<[l := dict_set k v d]> (heap w)) w).
Proof.
  intros Hl. unfold setitem. by rewrite (bind_returns _ _ _ _ _ (load_run _ _ _ Hl)).
Qed.

Lemma send_run w m url headers l d body :
  heap w !! l = Some d →
  let rq := {| req_method := m; req_url := url; req_headers := headers;
               req_cookies := Some d; req_payload := body |} in
  send m url headers (Some l) body w = (Returns (server w (sent w) rq), log_call rq w).
Proof.
  intros Hl rq. unfold send, cookies_arg.
  rewrite (bind_returns _ _ w (Some d) w); [done|].
  by rewrite (bind_returns _ _ _ _ _ (load_run _ _ _ Hl)).
Qed.

Lemma send_run_bare w m url headers body :
  let rq := {| req_method := m; req_url := url; req_headers := headers;
               req_cookies := None; req_payload := body |} in
  send m url headers None body w = (Returns (server w (sent w) rq), log_call rq w).
Proof. reflexivity. Qed.

Lemma get_current_time_run w :
  get_current_time w = (milliseconds (clock w (clock_reads w)), tick w).
Proof. unfold get_current_time. by rewrite bind_run. Qed.

(** ** The two loops of [authenticate_session] *)

(** The first loop leaves the dict object holding what [copy_keys] computes. *)
Lemma copy_loop_run (new : dict string) (l : loc) (ks : list string) :
  ∀ w d, heap w !! l = Some d → (∀ k, k ∈ ks → k ∈ dict_keys new) →
    for_each ks (fun cookie => v ← subscript new cookie; setitem l cookie v) w
    = (Returns tt, set_heap (<[l := copy_keys new ks d]> (heap w)) w).
Proof.
  induction ks as [|k ks IH]; intros w d Hl Hks; cbn [for_each].
  - unfold copy_keys. cbn [fold_left]. rewrite insert_id by done.
    by rewrite set_heap_same.
  - destruct (dict_get_keys k new) as [v Hv].
    { apply Hks, elem_of_cons. by left. }
    rewrite bind_run, bind_run. unfold subscript at 1. rewrite Hv. unfold ret at 1.
    rewrite (setitem_run _ _ _ _ _ Hl).
    rewrite (IH _ (dict_set k v d)).
    + cbn [set_heap heap]. unfold copy_keys at 2. cbn [fold_left]. rewrite Hv.
      rewrite insert_insert_eq. reflexivity.
    + cbn [set_heap heap]. apply lookup_insert_eq.
    + intros k' Hk'. apply Hks, elem_of_cons. by right.
Qed.

Lemma copy_response_cookies_run w cookies d response_cookies :
  heap w !! cookies = Some d →
  copy_response_cookies cookies response_cookies w
  = (Returns tt,
     set_heap (<[cookies := copy_keys response_cookies (dict_keys response_cookies) d]> (heap w)) w).
Proof. intros Hl. unfold copy_response_cookies. by apply copy_loop_run. Qed.

(** The second loop reads [session] and writes [cookies]; the two names
    are one object, so each assignment writes a value back to where it
    was just read. *)
Lemma restore_loop_run (l : loc) (new : dict string) (ks : list string) :
  ∀ w d, heap w !! l = Some d → (∀ k, k ∈ ks → k ∈ dict_keys d) →
    for_each ks (fun cookie_key =>
      if negb (dict_mem cookie_key new) then
        v ← getitem l cookie_key; setitem l cookie_key v
      else ret tt) w
    = (Returns tt, w).
Proof.
  induction ks as [|k ks IH]; intros w d Hl Hks; cbn [for_each]; [done|].
  rewrite bind_run.
  assert ((if negb (dict_mem k new)
           then v ← getitem l k; setitem l k v else ret tt) w = (Returns tt, w)) as ->.
  { destruct (negb (dict_mem k new)); [|done].
    destruct (dict_get_keys k d) as [v Hv].
    { apply Hks, elem_of_cons. by left. }
    rewrite (bind_returns _ _ _ _ _ (getitem_run _ _ _ _ _ Hl Hv)).
    rewrite (setitem_run _ _ _ _ _ Hl), (dict_set_same _ _ _ Hv).
    rewrite insert_id by done. by rewrite set_heap_same. }
  apply (IH w d Hl). intros k' Hk'. apply Hks, elem_of_cons. by right.
Qed.

Lemma restore_absent_cookies_run w session d response_cookies :
  heap w !! session = Some d →
  restore_absent_cookies session session response_cookies w = (Returns tt, w).
Proof.
  intros Hl. unfold restore_absent_cookies, keys_of.
  rewrite bind_run, (bind_returns _ _ _ _ _ (load_run _ _ _ Hl)). unfold ret at 1.
  by apply (restore_loop_run _ _ _ w d).
Qed.

(** ** The steps, case by case *)

(** The initiator: the response cookies become a new dict object. *)
Lemma create_session_200 w :
  let r := server w (sent w) create_request in
  status_code r = 200 →
  create_session w
  = (Returns (fresh (dom (heap w))),
     set_heap (<[fresh (dom (heap w)) := resp_cookies r]> (heap w))
       (log_call create_request w)).
Proof.
  intros r Hst. unfold create_session, s_get.
  rewrite bind_run, send_run_bare. fold create_request. fold r.
  rewrite Hst. cbn [Z.eqb Pos.eqb]. reflexivity.
Qed.

Lemma create_session_non200 w :
  let r := server w (sent w) create_request in
  status_code r ≠ 200 →
  create_session w
  = (Raises (Exception ("Failed to create session, status code: "
                         +:+ str_int (status_code r))),
     log_call create_request w).
Proof.
  intros r Hst. unfold create_session, s_get.
  rewrite bind_run, send_run_bare. fold create_request. fold r.
  apply Z.eqb_neq in Hst. by rewrite Hst.
Qed.

(** A clock reading that [round] rejects ends the call before the POST. *)
Lemma authenticate_session_clock_raises w session e :
  milliseconds (clock w (clock_reads w)) = Raises e →
  authenticate_session session w = (Raises e, tick w).
Proof.
  intros Hms. unfold authenticate_session.
  by rewrite bind_run, get_current_time_run, Hms.
Qed.

(** The authenticator on a 200 answer. *)
Lemma authenticate_session_200 w session old ms :
  heap w !! session = Some old →
  milliseconds (clock w (clock_reads w)) = Returns ms →
  let r := server w (sent w) (authenticate_request old ms) in
  status_code r = 200 →
  authenticate_session session w
  = (Returns (session, nfwid_of ms),
     set_heap (<[session := copy_keys (resp_cookies r) (dict_keys (resp_cookies r)) old]> (heap w))
       (log_call (authenticate_request old ms) (tick w))).
Proof.
  intros Hl Hms r Hst. unfold authenticate_session.
  rewrite bind_run, get_current_time_run, Hms.
  rewrite bind_run. unfold s_post.
  rewrite (send_run (tick w) _ _ _ _ old) by done.
  cbn [tick sent server].
  change (server w (sent w) _) with r. rewrite Hst. cbn [Z.eqb Pos.eqb].
  rewrite bind_run.
  rewrite (copy_response_cookies_run _ _ old) by done.
  rewrite bind_run.
  rewrite (restore_absent_cookies_run _ _
             (copy_keys (resp_cookies r) (dict_keys (resp_cookies r)) old)).
  - reflexivity.
  - cbn [set_heap heap]. apply lookup_insert_eq.
Qed.

(** The authenticator on any other answer. *)
Lemma authenticate_session_non200 w session old ms :
  heap w !! session = Some old →
  milliseconds (clock w (clock_reads w)) = Returns ms →
  let r := server w (sent w) (authenticate_request old ms) in
  status_code r ≠ 200 →
  authenticate_session session w
  = (Raises (Exception ("Failed to authenticate session, status code: "
                         +:+ str_int (status_code r))),
     log_call (authenticate_request old ms) (tick w)).
Proof.
  intros Hl Hms r Hst. unfold authenticate_session.
  rewrite bind_run, get_current_time_run, Hms.
  rewrite bind_run. unfold s_post.
  rewrite (send_run (tick w) _ _ _ _ old) by done.
  cbn [tick sent server].
  change (server w (sent w) _) with r.
  apply Z.eqb_neq in Hst. by rewrite Hst.
Qed.

Lemma close_session_200 w session d nf_wid :
  heap w !! session = Some d →
  status_code (server w (sent w) (close_request d nf_wid)) = 200 →
  close_session session nf_wid w
  = (Returns tt,
     write_line "Session closed successfully." (log_call (close_request d nf_wid) w)).
Proof.
  intros Hl Hst. unfold close_session, s_get.
  rewrite bind_run, (send_run _ _ _ _ _ d) by done. fold (close_request d nf_wid).
  rewrite Hst. reflexivity.
Qed.

Lemma close_session_non200 w session d nf_wid :
  heap w !! session = Some d →
  let r := server w (sent w) (close_request d nf_wid) in
  status_code r ≠ 200 →
  close_session session nf_wid w
  = (Raises (Exception ("Failed to close session, status code: "
                         +:+ str_int (status_code r))),
     log_call (close_request d nf_wid) w).
Proof.
  intros Hl r Hst. unfold close_session, s_get.
  rewrite bind_run, (send_run _ _ _ _ _ d) by done. fold (close_request d nf_wid). fold r.
  apply Z.eqb_neq in Hst. by rewrite Hst.
Qed.

(** Both fetchers open the same way: the token is read, the POST goes out. *)
Ltac fetch_start Hl Hx d :=
  rewrite bind_run, (getitem_run _ _ _ _ _ Hl Hx);
  unfold s_post; rewrite bind_run, (send_run _ _ _ _ _ d) by done.

Lemma get_vehicle_data_non200 w session d xsrf nf_wid reg vin date :
  heap w !! session = Some d →
  dict_get "XSRF-TOKEN" d = Some xsrf →
  let rq := fetch_request vehicle_data_url d xsrf nf_wid reg vin date in
  let r := server w (sent w) rq in
  status_code r ≠ 200 →
  get_vehicle_data session nf_wid reg vin date w
  = (Raises (Exception ("Failed to get vehicle data, status code: "
                         +:+ str_int (status_code r))),
     log_call rq w).
Proof.
  intros Hl Hx rq r Hst. unfold get_vehicle_data. fetch_start Hl Hx d.
  fold (fetch_request vehicle_data_url d xsrf nf_wid reg vin date). fold rq. fold r.
  apply Z.eqb_neq in Hst. by rewrite Hst.
Qed.

Lemma get_timeline_data_non200 w session d xsrf nf_wid reg vin date :
  heap w !! session = Some d →
  dict_get "XSRF-TOKEN" d = Some xsrf →
  let rq := fetch_request timeline_data_url d xsrf nf_wid reg vin date in
  let r := server w (sent w) rq in
  status_code r ≠ 200 →
  get_timeline_data session nf_wid reg vin date w
  = (Raises (Exception ("Failed to get timeline data, status code: "
                         +:+ str_int (status_code r))),
     log_call rq w).
Proof.
  intros Hl Hx rq r Hst. unfold get_timeline_data. fetch_start Hl Hx d.
  fold (fetch_request timeline_data_url d xsrf nf_wid reg vin date). fold rq. fold r.
  apply Z.eqb_neq in Hst. by rewrite Hst.
Qed.

(** A fetcher on a 200 answer that carries a JSON object. *)
Lemma get_vehicle_data_200_object w session d xsrf nf_wid reg vin date fields :
  heap w !! session = Some d →
  dict_get "XSRF-TOKEN" d = Some xsrf →
  let rq := fetch_request vehicle_data_url d xsrf nf_wid reg vin date in
  let r := server w (sent w) rq in
  status_code r = 200 →
  resp_json r = Some (JObj fields) →
  get_vehicle_data session nf_wid reg vin date w
  = (if dict_mem "technicalData" fields then Returns (JObj fields)
     else Raises (Exception "Technical data not found in the response."),
     log_call rq w).
Proof.
  intros Hl Hx rq r Hst Hj. unfold get_vehicle_data. fetch_start Hl Hx d.
  fold (fetch_request vehicle_data_url d xsrf nf_wid reg vin date). fold rq. fold r.
  rewrite Hst. cbn [Z.eqb Pos.eqb].
  rewrite bind_run. unfold r_json. rewrite Hj. unfold ret at 1.
  rewrite bind_run. cbn [py_in]. unfold ret at 1.
  by destruct (dict_mem "technicalData" fields).
Qed.

Lemma get_timeline_data_200_object w session d xsrf nf_wid reg vin date fields :
  heap w !! session = Some d →
  dict_get "XSRF-TOKEN" d = Some xsrf →
  let rq := fetch_request timeline_data_url d xsrf nf_wid reg vin date in
  let r := server w (sent w) rq in
  status_code r = 200 →
  resp_json r = Some (JObj fields) →
  get_timeline_data session nf_wid reg vin date w
  = (if dict_mem "timelineData" fields then Returns (JObj fields)
     else Raises (Exception "Timeline data not found in the response."),
     log_call rq w).
Proof.
  intros Hl Hx rq r Hst Hj. unfold get_timeline_data. fetch_start Hl Hx d.
  fold (fetch_request timeline_data_url d xsrf nf_wid reg vin date). fold rq. fold r.
  rewrite Hst. cbn [Z.eqb Pos.eqb].
  rewrite bind_run. unfold r_json. rewrite Hj. unfold ret at 1.
  rewrite bind_run. cbn [py_in]. unfold ret at 1.
  by destruct (dict_mem "timelineData" fields).
Qed.

(** Whatever the server answers, a fetcher that found the token has made
    exactly one call. *)
Lemma get_vehicle_data_sends w session d xsrf nf_wid reg vin date :
  heap w !! session = Some d →
  dict_get "XSRF-TOKEN" d = Some xsrf →
  (get_vehicle_data session nf_wid reg vin date w).2
  = log_call (fetch_request vehicle_data_url d xsrf nf_wid reg vin date) w.
Proof.
  intros Hl Hx. unfold get_vehicle_data. fetch_start Hl Hx d.
  fold (fetch_request vehicle_data_url d xsrf nf_wid reg vin date).
  destruct (status_code _ =? 200)%Z; [|done].
  rewrite bind_run. unfold r_json. destruct (resp_json _) as [j|]; [|done].
  unfold ret at 1. rewrite bind_run.
  destruct j; cbn [py_in]; try done; unfold ret at 1;
    match goal with |- context [if ?b then _ else _] => by destruct b end.
Qed.

Lemma get_timeline_data_sends w session d xsrf nf_wid reg vin date :
  heap w !! session = Some d →
  dict_get "XSRF-TOKEN" d = Some xsrf →
  (get_timeline_data session nf_wid reg vin date w).2
  = log_call (fetch_request timeline_data_url d xsrf nf_wid reg vin date) w.
Proof.
  intros Hl Hx. unfold get_timeline_data. fetch_start Hl Hx d.
  fold (fetch_request timeline_data_url d xsrf nf_wid reg vin date).
  destruct (status_code _ =? 200)%Z; [|done].
  rewrite bind_run. unfold r_json. destruct (resp_json _) as [j|]; [|done].
  unfold ret at 1. rewrite bind_run.
  destruct j; cbn [py_in]; try done; unfold ret at 1;
    match goal with |- context [if ?b then _ else _] => by destruct b end.
Qed.

(** Different millisecond values give different identifiers. *)
Lemma nfwid_of_inj ms ms' : nfwid_of ms = nfwid_of ms' → ms = ms'.
Proof.
  unfold nfwid_of, str_int. intros H.
  apply (inj (String.app "HistoriaPojazdu:")) in H. by apply (inj pretty) in H.
Qed.

(** ** Rounding to the nearest integer *)

(** Rounding moves to the quotient or to the next integer. *)
Lemma round_half_even_bounds n d :
  0 < d → n / d ≤ round_half_even n d ≤ n / d + 1.
Proof.
  intros Hd. unfold round_half_even.
  destruct (2 * (n mod d) ?= d); [destruct (Z.even _)|..]; lia.
Qed.

(** Rounding keeps the order. *)
Lemma round_half_even_mono n1 n2 d :
  0 < d → n1 ≤ n2 → round_half_even n1 d ≤ round_half_even n2 d.
Proof.
  intros Hd Hle.
  pose proof (Z.div_le_mono n1 n2 d Hd Hle) as Hq.
  destruct (Z.eq_dec (n1 / d) (n2 / d)) as [Heq|Hne].
  - pose proof (Z.div_mod n1 d ltac:(lia)) as H1.
    pose proof (Z.div_mod n2 d ltac:(lia)) as H2.
    unfold round_half_even. rewrite <- Heq.
    destruct (Z.compare_spec (2 * (n1 mod d)) d), (Z.compare_spec (2 * (n2 mod d)) d);
      try destruct (Z.even (n1 / d)); nia.
  - pose proof (round_half_even_bounds n1 d Hd).
    pose proof (round_half_even_bounds n2 d Hd). lia.
Qed.

(** A whole multiple rounds to itself. *)
Lemma round_half_even_multiple k d : 0 < d → round_half_even (k * d) d = k.
Proof.
  intros Hd. unfold round_half_even.
  rewrite Z.div_mul, Z.mod_mul by lia.
  destruct d; [lia|reflexivity|lia].
Qed.

(** Rounding a fraction does not depend on how it is written. *)
Lemma round_half_even_scale n d c :
  0 < d → 0 < c → round_half_even (n * c) (d * c) = round_half_even n d.
Proof.
  intros Hd Hc. unfold round_half_even.
  rewrite Z.div_mul_cancel_r, Z.mul_mod_distr_r by lia.
  replace (2 * (n mod d * c)) with (2 * (n mod d) * c) by lia.
  destruct (Z.compare_spec (2 * (n mod d) * c) (d * c)),
    (Z.compare_spec (2 * (n mod d)) d); try reflexivity; nia.
Qed.

(** Rounding is off by half a unit at most. *)
Lemma round_half_even_error n d :
  0 < d → 2 * Z.abs (round_half_even n d * d - n) ≤ d.
Proof.
  intros Hd. unfold round_half_even.
  pose proof (Z.div_mod n d ltac:(lia)) as Hn.
  pose proof (Z.mod_pos_bound n d Hd) as Hr.
  destruct (Z.compare_spec (2 * (n mod d)) d); [destruct (Z.even (n / d))|..]; nia.
Qed.

(** ** The float product, bit by bit *)

(** [iter_pos] is iteration a number of times. *)
Lemma iter_pos_nat {A} (f : A → A) p x :
  SpecFloat.iter_pos f p x = Nat.iter (Pos.to_nat p) f x.
Proof.
  revert x. induction p as [p IH|p IH|]; intros x; cbn [SpecFloat.iter_pos].
  - rewrite !IH, Pos2Nat.inj_xI.
    replace (S (2 * Pos.to_nat p))%nat with (Pos.to_nat p + (Pos.to_nat p + 1))%nat by lia.
    rewrite !Nat.iter_add. reflexivity.
  - rewrite !IH, Pos2Nat.inj_xO.
    replace (2 * Pos.to_nat p)%nat with (Pos.to_nat p + Pos.to_nat p)%nat by lia.
    rewrite Nat.iter_add. reflexivity.
  - reflexivity.
Qed.

(** One shift halves the mantissa, remembers the bit that fell off as the
    round bit and folds the old round bit into the sticky bit. *)
Lemma shr_1_nonneg m r s :
  0 ≤ m → shr_1 (Build_shr_record m r s) = Build_shr_record (m / 2) (Z.odd m) (r || s).
Proof.
  intros Hm. rewrite <- Z.div2_div.
  destruct m as [|[p|p|]|p]; try reflexivity; lia.
Qed.

(** The low [k + 1] bits are the low [k] bits and bit [k]. *)
Lemma mod_pow2_succ m k :
  0 ≤ k → m mod 2 ^ (k + 1) = m mod 2 ^ k + 2 ^ k * (m / 2 ^ k mod 2).
Proof.
  intros Hk. rewrite Z.pow_add_r, Z.pow_1_r by lia.
  apply Z.rem_mul_r; [|lia]. apply Z.pow_nonzero; lia.
Qed.

Lemma odd_mod2 x : Z.odd x = (x mod 2 =? 1).
Proof.
  rewrite Zmod_odd. by destruct (Z.odd x).
Qed.

(** After [k + 1] shifts: the quotient by [2^(k+1)], bit [k] as round bit,
    and whether any lower bit was set as sticky bit. *)
Lemma shr_iter m k :
  0 ≤ m →
  Nat.iter (S k) shr_1 (Build_shr_record m false false)
  = Build_shr_record (m / 2 ^ (Z.of_nat k + 1)) (Z.odd (m / 2 ^ Z.of_nat k))
      (negb (m mod 2 ^ Z.of_nat k =? 0)).
Proof.
  intros Hm. induction k as [|k IH].
  - cbn [Nat.iter]. rewrite shr_1_nonneg by done. cbn [Z.of_nat Z.add].
    rewrite Z.pow_0_r, Z.pow_1_r, Z.div_1_r, Z.mod_1_r. reflexivity.
  - change (Nat.iter (S (S k)) shr_1 ?x) with (shr_1 (Nat.iter (S k) shr_1 x)).
    rewrite IH, shr_1_nonneg.
    2:{ apply Z.div_pos; [done|]. apply Z.pow_pos_nonneg; lia. }
    rewrite Z.div_div by (try apply Z.pow_pos_nonneg; lia).
    replace (Z.of_nat (S k)) with (Z.of_nat k + 1) by lia.
    replace (2 ^ (Z.of_nat k + 1) * 2) with (2 ^ (Z.of_nat k + 1 + 1))
      by (rewrite (Z.pow_add_r 2 (Z.of_nat k + 1) 1) by lia; lia).
    f_equal.
    rewrite (mod_pow2_succ m (Z.of_nat k)) by lia.
    rewrite odd_mod2.
    pose proof (Z.mod_pos_bound m (2 ^ Z.of_nat k) ltac:(apply Z.pow_pos_nonneg; lia)).
    pose proof (Z.mod_pos_bound (m / 2 ^ Z.of_nat k) 2 ltac:(lia)).
    pose proof (Z.pow_pos_nonneg 2 (Z.of_nat k) ltac:(lia) ltac:(lia)).
    set (lo := m mod 2 ^ Z.of_nat k) in *.
    set (b := m / 2 ^ Z.of_nat k mod 2) in *.
    set (g := 2 ^ Z.of_nat k) in *.
    destruct (Z.eqb_spec b 1), (Z.eqb_spec lo 0), (Z.eqb_spec (lo + g * b) 0);
      cbn [orb negb]; try reflexivity; nia.
Qed.

(** Shifting right by [p] and rounding on the round and sticky bits is
    rounding the quotient by [2^p] to nearest, ties to even. *)
Lemma shr_round m (p : positive) :
  0 ≤ m →
  let mrs := SpecFloat.iter_pos shr_1 p (Build_shr_record m false false) in
  round_nearest_even (shr_m mrs) (loc_of_shr_record mrs) = round_half_even m (2 ^ Z.pos p).
Proof.
  intros Hm mrs. subst mrs. rewrite iter_pos_nat.
  destruct (Pos2Nat.is_succ p) as [k Hk]. rewrite Hk, shr_iter by done.
  assert (Z.pos p = Z.of_nat k + 1) as -> by lia.
  cbn [shr_m]. unfold round_half_even.
  rewrite (mod_pow2_succ m (Z.of_nat k)) by lia.
  rewrite Z.pow_add_r, Z.pow_1_r by lia.
  rewrite odd_mod2.
  pose proof (Z.mod_pos_bound m (2 ^ Z.of_nat k) ltac:(apply Z.pow_pos_nonneg; lia)).
  pose proof (Z.mod_pos_bound (m / 2 ^ Z.of_nat k) 2 ltac:(lia)).
  pose proof (Z.pow_pos_nonneg 2 (Z.of_nat k) ltac:(lia) ltac:(lia)).
  set (lo := m mod 2 ^ Z.of_nat k) in *.
  set (b := m / 2 ^ Z.of_nat k mod 2) in *.
  set (g := 2 ^ Z.of_nat k) in *.
  destruct (Z.eqb_spec b 1) as [Hb|Hb]; destruct (Z.eqb_spec lo 0) as [Hlo|Hlo];
    cbn [negb loc_of_shr_record round_nearest_even];
    destruct (Z.compare_spec (2 * (lo + g * b)) (g * 2)); try reflexivity; nia.
Qed.

(** The number of binary digits. *)
Lemma digits2_pos_log2 (p : positive) :
  Z.pos (digits2_pos p) = Z.log2 (Z.pos p) + 1.
Proof.
  assert (Hs : digits2_pos p = Pos.size p) by (induction p; simpl; congruence).
  rewrite Hs. destruct p; simpl; lia.
Qed.

Lemma digits2_pos_bounds (p : positive) :
  2 ^ (Z.pos (digits2_pos p) - 1) ≤ Z.pos p < 2 ^ Z.pos (digits2_pos p).
Proof.
  rewrite digits2_pos_log2.
  pose proof (Z.log2_spec (Z.pos p) ltac:(lia)) as H.
  replace (Z.log2 (Z.pos p) + 1 - 1) with (Z.log2 (Z.pos p)) by lia.
  replace (Z.log2 (Z.pos p) + 1) with (Z.succ (Z.log2 (Z.pos p))) by lia.
  exact H.
Qed.

(** The exponent of the last place, for binary64. *)
Lemma fexp_eq e : fexp 53 1024 e = Z.max (e - 53) (-1074).
Proof. reflexivity. Qed.

(** The second shift of [binary_round_aux] only renormalises a mantissa
    that rounding has carried to [2^53]; the value stays. *)
Lemma second_pass (q E1 : Z) :
  0 ≤ q ≤ 2 ^ 53 → -1074 ≤ E1 →
  match
    (let '(mrs, e) := shr_fexp 53 1024 q E1 loc_Exact in
     match shr_m mrs with
     | 0 => S754_zero false
     | Z.pos m => if e <=? 1024 - 53 then S754_finite false m e else S754_infinity false
     | Z.neg _ => S754_nan
     end)
  with
  | S754_zero _ => q = 0
  | S754_finite s m e =>
      s = false ∧ -1074 ≤ e ∧ Z.pos m * 2 ^ (e + scale) = q * 2 ^ (E1 + scale)
  | S754_infinity _ => 970 < E1
  | S754_nan => False
  end.
Proof.
  intros Hq HE. unfold shr_fexp, shr, shr_record_of_loc. rewrite fexp_eq.
  destruct q as [|m|m]; [| |lia].
  - cbn [Zdigits2].
    destruct (Z.max (0 + E1 - 53) (-1074) - E1) eqn:Hn; try reflexivity. lia.
  - cbn [Zdigits2].
    pose proof (digits2_pos_bounds m) as Hd.
    set (d := Z.pos (digits2_pos m)) in *.
    destruct (Z.eq_dec (Z.pos m) (2 ^ 53)) as [Heq|Hne].
    + assert (d = 54) as ->.
      { assert (d - 1 < 54) by (apply (Z.pow_lt_mono_r_iff 2); lia).
        assert (53 < d) by (apply (Z.pow_lt_mono_r_iff 2); lia). lia. }
      replace (Z.max (54 + E1 - 53) (-1074) - E1) with 1 by lia.
      injection Heq as ->. cbn [SpecFloat.iter_pos shr_1 shr_m].
      destruct (Z.leb_spec (E1 + 1) (1024 - 53)); [|clear Hq Hd; simpl; lia].
      split; [done|]. split; [lia|].
      replace (E1 + 1 + scale) with (1 + (E1 + scale)) by lia.
      rewrite Z.pow_add_r by (unfold scale; lia). lia.
    + assert (d ≤ 53).
      { destruct (Z.le_gt_cases d 53) as [|Hgt]; [done|exfalso].
        assert (2 ^ 53 ≤ 2 ^ (d - 1)) by (apply Z.pow_le_mono_r; lia). lia. }
      destruct (Z.max (d + E1 - 53) (-1074) - E1) eqn:Hn; try lia;
        cbn [shr_m]; (destruct (Z.leb_spec E1 (1024 - 53)); [|cbv beta iota; lia]);
        repeat split; lia.
Qed.

(** The first shift of [binary_round_aux] and the rounding that follows
    yield the nearest double of the exact value. *)
Lemma first_pass (M : positive) (E : Z) :
  - scale ≤ E →
  let mrs_e := shr_fexp 53 1024 (Z.pos M) E loc_Exact in
  let q := round_nearest_even (shr_m mrs_e.1) (loc_of_shr_record mrs_e.1) in
  0 ≤ q ≤ 2 ^ 53 ∧
  -1074 ≤ mrs_e.2 ≤ Z.max (Z.pos (digits2_pos M) + E - 53) (Z.max (-1074) E) ∧
  q * 2 ^ (mrs_e.2 + scale) = nearest_double (Z.pos M * 2 ^ (E + scale)).
Proof.
  unfold scale. intros HE. cbv zeta.
  unfold shr_fexp, shr, shr_record_of_loc. rewrite fexp_eq. cbn [Zdigits2].
  pose proof (digits2_pos_bounds M) as Hd.
  pose proof (digits2_pos_log2 M) as Hlog.
  set (d := Z.pos (digits2_pos M)) in *.
  unfold nearest_double.
  rewrite Z.log2_mul_pow2 by lia.
  replace (E + 1117 + Z.log2 (Z.pos M) + 1 - 53) with (d + E - 53 + 1117) by lia.
  destruct (Z.max (d + E - 53) (-1074) - E) as [|p|p] eqn:Hn.
  - (* no shift *)
    cbn [fst snd shr_m loc_of_shr_record round_nearest_even].
    assert (d ≤ 53) by lia.
    assert (2 ^ d ≤ 2 ^ 53) by (apply Z.pow_le_mono_r; lia).
    split; [lia|]. split; [lia|].
    set (n := Z.max (d + E - 53 + 1117) 43).
    replace (Z.pos M * 2 ^ (E + 1117)) with (Z.pos M * 2 ^ (E + 1117 - n) * 2 ^ n).
    { rewrite round_half_even_multiple by (apply Z.pow_pos_nonneg; lia).
      rewrite <- Z.mul_assoc, <- Z.pow_add_r by lia.
      by replace (E + 1117 - n + n) with (E + 1117) by lia. }
    rewrite <- Z.mul_assoc, <- Z.pow_add_r by lia.
    by replace (E + 1117 - n + n) with (E + 1117) by lia.
  - (* shift by [p] *)
    cbn [fst snd]. rewrite shr_round by lia.
    assert (0 < 2 ^ Z.pos p) by (apply Z.pow_pos_nonneg; lia).
    pose proof (round_half_even_bounds (Z.pos M) (2 ^ Z.pos p) ltac:(done)) as Hb.
    assert (Z.pos M / 2 ^ Z.pos p < 2 ^ 53).
    { apply Z.div_lt_upper_bound; [done|].
      rewrite <- Z.pow_add_r by lia.
      assert (2 ^ d ≤ 2 ^ (Z.pos p + 53)) by (apply Z.pow_le_mono_r; lia). lia. }
    assert (0 ≤ Z.pos M / 2 ^ Z.pos p) by (apply Z.div_pos; lia).
    split; [lia|]. split; [lia|].
    replace (Z.max (d + E - 53 + 1117) 43) with (Z.pos p + (E + 1117)) by lia.
    rewrite (Z.pow_add_r 2 (Z.pos p)) by lia.
    rewrite round_half_even_scale by (try apply Z.pow_pos_nonneg; lia).
    rewrite <- Z.pow_add_r by lia.
    by replace (E + Z.pos p + 1117) with (Z.pos p + (E + 1117)) by lia.
  - (* no shift *)
    cbn [fst snd shr_m loc_of_shr_record round_nearest_even].
    assert (d ≤ 53) by lia.
    assert (2 ^ d ≤ 2 ^ 53) by (apply Z.pow_le_mono_r; lia).
    split; [lia|]. split; [lia|].
    set (n := Z.max (d + E - 53 + 1117) 43).
    replace (Z.pos M * 2 ^ (E + 1117)) with (Z.pos M * 2 ^ (E + 1117 - n) * 2 ^ n).
    { rewrite round_half_even_multiple by (apply Z.pow_pos_nonneg; lia).
      rewrite <- Z.mul_assoc, <- Z.pow_add_r by lia.
      by replace (E + 1117 - n + n) with (E + 1117) by lia. }
    rewrite <- Z.mul_assoc, <- Z.pow_add_r by lia.
    by replace (E + 1117 - n + n) with (E + 1117) by lia.
Qed.

(** A finite result of [binary_round_aux] is the nearest double of the
    exact value it was given. *)
Lemma binary_round_aux_value (M : positive) (E : Z) :
  - scale ≤ E →
  match binary_round_aux 53 1024 false (Z.pos M) E loc_Exact with
  | S754_zero _ => nearest_double (Z.pos M * 2 ^ (E + scale)) = 0
  | S754_finite s m e =>
      s = false ∧ -1074 ≤ e ∧
      Z.pos m * 2 ^ (e + scale) = nearest_double (Z.pos M * 2 ^ (E + scale))
  | S754_infinity _ => 970 < Z.max (Z.pos (digits2_pos M) + E - 53) (Z.max (-1074) E)
  | S754_nan => False
  end.
Proof.
  intros HE. unfold binary_round_aux.
  pose proof (first_pass M E HE) as H. cbv zeta in H.
  destruct (shr_fexp 53 1024 (Z.pos M) E loc_Exact) as [mrs e]. cbn [fst snd] in H.
  destruct H as (Hq & He & Hval). rewrite <- Hval.
  pose proof (second_pass _ e Hq (proj1 He)) as H2.
  destruct (shr_fexp 53 1024 _ e loc_Exact) as [mrs2 e2].
  destruct (shr_m mrs2) as [|m2|m2]; [| |done].
  - rewrite H2. lia.
  - destruct (e2 <=? 1024 - 53); [exact H2|lia].
Qed.

(** ** The clock in milliseconds *)

(** [round] of a positive double, in units of [2^-scale]. *)
Lemma py_round_scaled m e :
  - scale ≤ e →
  py_round (S754_finite false m e)
  = Returns (round_half_even (Z.pos m * 2 ^ (e + scale)) (2 ^ scale)).
Proof.
  unfold scale. intros He. cbn [py_round]. f_equal.
  destruct (Z.leb_spec 0 e).
  - rewrite Z.pow_add_r, Z.mul_assoc by lia.
    by rewrite round_half_even_multiple.
  - rewrite <- (round_half_even_scale (Z.pos m) (2 ^ (- e)) (2 ^ (e + 1117)))
      by (apply Z.pow_pos_nonneg; lia).
    rewrite <- Z.pow_add_r by lia.
    by replace (- e + (e + 1117)) with 1117 by lia.
Qed.

(** The millisecond value of a reading, as a function of the reading in
    ulps: multiply by 1000, take the nearest double, round to an integer. *)
Lemma milliseconds_value m e a :
  -1074 ≤ e →
  milliseconds (S754_finite false m e) = Returns a →
  a = round_half_even (nearest_double (8796093022208000 * in_ulps m e)) (2 ^ scale).
Proof.
  intros He. unfold milliseconds, float_mul.
  change (float_of_int 1000) with (S754_finite false 8796093022208000 (-43)).
  cbn [SFmul xorb].
  pose proof (binary_round_aux_value (m * 8796093022208000) (e + -43)
                ltac:(unfold scale; lia)) as H.
  replace (Z.pos (m * 8796093022208000) * 2 ^ (e + -43 + scale))
    with (8796093022208000 * in_ulps m e) in H.
  2:{ unfold in_ulps, scale. replace (e + -43 + 1117) with (e + 1074) by lia. lia. }
  destruct (binary_round_aux 53 1024 false _ _ _) as [s|s| |s m' e']; try done.
  - cbn [py_round]. intros [= <-]. by rewrite H.
  - destruct H as (-> & He' & <-).
    rewrite py_round_scaled by (unfold scale; lia). by intros [= <-].
Qed.

(** A product below the overflow threshold is finite: the clock of any
    time before [2^1013] seconds converts. *)
Lemma milliseconds_returns m e :
  -1074 ≤ e ≤ 960 → Z.pos m < 2 ^ 53 →
  ∃ a, milliseconds (S754_finite false m e) = Returns a.
Proof.
  intros He Hm. unfold milliseconds, float_mul.
  change (float_of_int 1000) with (S754_finite false 8796093022208000 (-43)).
  cbn [SFmul xorb].
  pose proof (binary_round_aux_value (m * 8796093022208000) (e + -43)
                ltac:(unfold scale; lia)) as H.
  pose proof (digits2_pos_bounds (m * 8796093022208000)) as Hd.
  set (d := Z.pos (digits2_pos (m * 8796093022208000))) in *.
  assert (d ≤ 106).
  { assert (d - 1 < 106); [|lia]. apply (Z.pow_lt_mono_r_iff 2); [lia..|].
    change (2 ^ 106) with (2 ^ 53 * 2 ^ 53). nia. }
  destruct (binary_round_aux 53 1024 false _ _ _) as [s|s| |s m' e'].
  - by eexists.
  - lia.
  - done.
  - by eexists.
Qed.

(** Taking the nearest double keeps the order: within a binade it is one
    rounding, and across binades the power of two between the two values
    is a double itself. *)
Lemma nearest_double_mono P1 P2 :
  0 < P1 → P1 ≤ P2 → nearest_double P1 ≤ nearest_double P2.
Proof.
  intros Hpos Hle. unfold nearest_double.
  pose proof (Z.log2_le_mono P1 P2 Hle) as Hlog.
  pose proof (Z.log2_spec P1 Hpos) as Hs1.
  pose proof (Z.log2_spec P2 ltac:(lia)) as Hs2.
  pose proof (Z.log2_nonneg P1) as Hn1.
  set (n1 := Z.max (Z.log2 P1 + 1 - 53) 43).
  set (n2 := Z.max (Z.log2 P2 + 1 - 53) 43).
  assert (0 < 2 ^ n1) by (apply Z.pow_pos_nonneg; lia).
  assert (0 < 2 ^ n2) by (apply Z.pow_pos_nonneg; lia).
  destruct (Z.eq_dec n1 n2) as [Heq|Hne].
  - rewrite <- Heq. apply Z.mul_le_mono_nonneg_r; [lia|].
    by apply round_half_even_mono.
  - assert (Hlt : Z.log2 P1 < Z.log2 P2) by lia.
    assert (Hn2 : n1 < n2 ∧ n2 = Z.log2 P2 - 52) by lia. destruct Hn2 as [Hn12 Hn2].
    set (X := 2 ^ Z.log2 P2).
    assert (HX1 : P1 ≤ X).
    { assert (2 ^ Z.succ (Z.log2 P1) ≤ X) by (apply Z.pow_le_mono_r; lia). lia. }
    assert (HX2 : X ≤ P2) by (unfold X; lia).
    assert (Hg1 : X = 2 ^ (Z.log2 P2 - n1) * 2 ^ n1).
    { unfold X. rewrite <- Z.pow_add_r by lia. f_equal. lia. }
    assert (Hg2 : X = 2 ^ (Z.log2 P2 - n2) * 2 ^ n2).
    { unfold X. rewrite <- Z.pow_add_r by lia. f_equal. lia. }
    assert (Hr1 : round_half_even P1 (2 ^ n1) ≤ 2 ^ (Z.log2 P2 - n1)).
    { rewrite <- (round_half_even_multiple (2 ^ (Z.log2 P2 - n1)) (2 ^ n1)) by done.
      apply round_half_even_mono; [done|]. by rewrite <- Hg1. }
    assert (Hr2 : 2 ^ (Z.log2 P2 - n2) ≤ round_half_even P2 (2 ^ n2)).
    { rewrite <- (round_half_even_multiple (2 ^ (Z.log2 P2 - n2)) (2 ^ n2)) at 1 by done.
      apply round_half_even_mono; [done|]. by rewrite <- Hg2. }
    transitivity X.
    + rewrite Hg1. by apply Z.mul_le_mono_nonneg_r; [lia|].
    + rewrite Hg2. by apply Z.mul_le_mono_nonneg_r; [lia|].
Qed.

(** A valid positive double has at most 53 digits, and exactly 53 unless
    it is subnormal. *)
Lemma valid_exponent m e :
  valid_binary 53 1024 (S754_finite false m e) = true →
  -1074 ≤ e ∧ Z.pos m < 2 ^ 53 ∧ (-1074 < e → 2 ^ 52 ≤ Z.pos m).
Proof.
  cbn [valid_binary]. unfold bounded, canonical_mantissa. rewrite fexp_eq.
  intros H. apply andb_prop in H as [H _]. apply Z.eqb_eq in H.
  pose proof (digits2_pos_bounds m) as Hd.
  set (d := Z.pos (digits2_pos m)) in *.
  split; [lia|]. split.
  - assert (2 ^ d ≤ 2 ^ 53) by (apply Z.pow_le_mono_r; lia). lia.
  - intros He. assert (d = 53) as Hd53 by lia. rewrite Hd53 in Hd.
    replace (53 - 1) with 52 in Hd by lia. lia.
Qed.

(** The float comparison [t1 <= t2] is the order of the values. *)
Lemma time_le_in_ulps m1 e1 m2 e2 :
  valid_binary 53 1024 (S754_finite false m1 e1) = true →
  valid_binary 53 1024 (S754_finite false m2 e2) = true →
  SFleb (S754_finite false m1 e1) (S754_finite false m2 e2) = true →
  in_ulps m1 e1 ≤ in_ulps m2 e2.
Proof.
  intros Hv1 Hv2. apply valid_exponent in Hv1 as (He1 & Hm1 & _).
  apply valid_exponent in Hv2 as (He2 & _ & Hm2).
  unfold SFleb, SFcompare, in_ulps.
  destruct (Z.compare_spec e1 e2) as [->|Hlt|Hgt]; [| |done].
  - intros Hc. apply Z.mul_le_mono_nonneg_r; [apply Z.pow_nonneg; lia|].
    change (Z.pos m1 ≤ Z.pos m2) with (m1 ≤ m2)%positive.
    rewrite Pos.compare_cont_spec in Hc. cbn in Hc.
    destruct (Pos.compare_spec m1 m2); try done; lia.
  - intros _. specialize (Hm2 ltac:(lia)).
    assert (0 < 2 ^ (e1 + 1074)) by (apply Z.pow_pos_nonneg; lia).
    assert (2 ^ (e1 + 1074) * 2 ≤ 2 ^ (e2 + 1074)).
    { replace (2 ^ (e1 + 1074) * 2) with (2 ^ (e1 + 1074 + 1))
        by (rewrite (Z.pow_add_r 2 (e1 + 1074) 1) by lia; lia).
      apply Z.pow_le_mono_r; lia. }
    change (2 ^ 53) with (2 ^ 52 * 2) in Hm1. nia.
Qed.

(** The clock of a time converts. *)
Lemma is_time_milliseconds t :
  is_time t = true → ∃ ms, milliseconds t = Returns ms.
Proof.
  destruct t as [| | |[] m e]; try done.
  cbn [is_time]. intros H. apply andb_prop in H as [Hv He].
  apply valid_exponent in Hv as (Hlo & Hm & _). apply Z.leb_le in He.
  by apply milliseconds_returns.
Qed.

(** A later clock reading never gives a smaller millisecond value. *)
Lemma milliseconds_mono t1 t2 a1 a2 :
  is_time t1 = true → is_time t2 = true →
  SFleb t1 t2 = true →
  milliseconds t1 = Returns a1 → milliseconds t2 = Returns a2 →
  a1 ≤ a2.
Proof.
  destruct t1 as [| | |[] m1 e1]; try done.
  destruct t2 as [| | |[] m2 e2]; try done.
  cbn [is_time]. intros Hv1 Hv2 Hle H1 H2.
  apply andb_prop in Hv1 as [Hv1 _]. apply andb_prop in Hv2 as [Hv2 _].
  pose proof (time_le_in_ulps _ _ _ _ Hv1 Hv2 Hle) as Hu.
  apply valid_exponent in Hv1 as (He1 & _). apply valid_exponent in Hv2 as (He2 & _).
  apply milliseconds_value in H1 as ->; [|done].
  apply milliseconds_value in H2 as ->; [|done].
  apply round_half_even_mono; [apply Z.pow_pos_nonneg; unfold scale; lia|].
  apply nearest_double_mono; [|lia].
  unfold in_ulps. assert (0 < 2 ^ (e1 + 1074)) by (apply Z.pow_pos_nonneg; lia). lia.
Qed.

(** For a reading [t = m * 2^e] below [2^41] seconds the millisecond value
    is not negative and less than one millisecond away from [1000 * t],
    both counted in units of [2^-1117] milliseconds: the product is off by
    half an ulp at most, which is then less than a quarter of a
    millisecond, and [round] by half a millisecond at most. *)
Lemma milliseconds_close m e ms :
  valid_binary 53 1024 (S754_finite false m e) = true →
  e ≤ -12 →
  milliseconds (S754_finite false m e) = Returns ms →
  0 ≤ ms
  ∧ Z.abs (ms * 2 ^ 1117 - 1000 * (Z.pos m * 2 ^ (e + 1117))) < 2 ^ 1117.
Proof.
  intros Hv He Hms. apply valid_exponent in Hv as (Hlo & Hm & _).
  apply milliseconds_value in Hms; [|done].
  set (P := 8796093022208000 * in_ulps m e) in *.
  assert (HP : P = 1000 * (Z.pos m * 2 ^ (e + 1117))).
  { unfold P, in_ulps. replace (e + 1117) with (e + 1074 + 43) by lia.
    rewrite (Z.pow_add_r 2 (e + 1074) 43) by lia.
    change (2 ^ 43) with 8796093022208. lia. }
  rewrite <- HP.
  assert (Hpos : 0 < P).
  { unfold P, in_ulps. assert (0 < 2 ^ (e + 1074)) by (apply Z.pow_pos_nonneg; lia). lia. }
  assert (Hlog : Z.log2 P < 1168).
  { apply Z.log2_lt_pow2; [done|]. rewrite HP.
    assert (H1 : 2 ^ (e + 1117) ≤ 2 ^ 1105) by (apply Z.pow_le_mono_r; lia).
    assert (H0 : 0 < 2 ^ (e + 1117)) by (apply Z.pow_pos_nonneg; lia).
    replace 1168 with (10 + 53 + 1105) by lia.
    rewrite (Z.pow_add_r 2 (10 + 53) 1105), (Z.pow_add_r 2 10 53) by lia.
    set (a := 2 ^ (e + 1117)) in *. set (b := 2 ^ 1105) in *.
    assert (H53 : 0 < 2 ^ 53) by (apply Z.pow_pos_nonneg; lia).
    set (c := 2 ^ 53) in *. change (2 ^ 10) with 1024.
    assert (Z.pos m * a < c * b) by nia. lia. }
  pose proof (Z.log2_nonneg P) as Hlog0.
  unfold nearest_double in Hms.
  set (n := Z.max (Z.log2 P + 1 - 53) 43) in *.
  assert (Hn : 43 ≤ n ≤ 1115) by lia.
  assert (Hg : 0 < 2 ^ n) by (apply Z.pow_pos_nonneg; lia).
  pose proof (round_half_even_error P (2 ^ n) Hg) as E1.
  set (N := round_half_even P (2 ^ n) * 2 ^ n) in *.
  assert (Hs : 0 < 2 ^ scale) by (apply Z.pow_pos_nonneg; unfold scale; lia).
  pose proof (round_half_even_error N (2 ^ scale) Hs) as E2.
  rewrite <- Hms in E2. unfold scale in *.
  assert (Hgn : 2 ^ n * 4 ≤ 2 ^ 1117).
  { change 4 with (2 ^ 2). rewrite <- Z.pow_add_r by lia.
    apply Z.pow_le_mono_r; lia. }
  assert (HS : 0 < 2 ^ 1117) by (apply Z.pow_pos_nonneg; lia).
  set (S := 2 ^ 1117) in *. set (G := 2 ^ n) in *.
  assert (Hclose : Z.abs (ms * S - P) < S) by lia.
  split; [nia|done].
Qed.

(** * The claims *)

(** C1. On HTTP 200 the authenticator returns the very dict it was given,
    now holding the right-biased union of the old cookies and the response
    cookies: a cookie named in the response has its response value, every
    other old cookie is kept.  In particular [{A:1, B:2}] merged with
    [{B:3, C:4}] is [{A:1, B:3, C:4}]. *)
Theorem authenticate_session_right_biased_union :
  (∀ w session old ms,
     heap w !! session = Some old →
     milliseconds (clock w (clock_reads w)) = Returns ms →
     let r := server w (sent w) (authenticate_request old ms) in
     status_code r = 200 →
     ∃ merged w',
       authenticate_session session w = (Returns (session, nfwid_of ms), w') ∧
       heap w' !! session = Some merged ∧
       (∀ k v, dict_get k (resp_cookies r) = Some v → dict_get k merged = Some v) ∧
       (∀ k, dict_get k (resp_cookies r) = None → dict_get k merged = dict_get k old))
  ∧ (∃ w', authenticate_session 0%nat merge_world
             = (Returns (0%nat, "HistoriaPojazdu:1790742856439"), w') ∧
           heap w' !! 0%nat = Some [("A", "1"); ("B", "3"); ("C", "4")]).
Proof.
  split.
  - intros w session old ms Hl Hms r Hst.
    eexists _, _. split; [by apply authenticate_session_200|].
    cbn [set_heap heap]. split; [apply lookup_insert_eq|].
    fold r. split.
    + intros k v Hk. by rewrite copy_keys_all_get, Hk.
    + intros k Hk. by rewrite copy_keys_all_get, Hk.
  - eexists. split; vm_compute; reflexivity.
Qed.

Lemma authenticate_session_right_biased_union_witness :
  heap merge_world !! 0%nat = Some [("A", "1"); ("B", "2")] ∧
  milliseconds (clock merge_world (clock_reads merge_world)) = Returns 1790742856439 ∧
  ∃ merged w',
    authenticate_session 0%nat merge_world
      = (Returns (0%nat, nfwid_of 1790742856439), w') ∧
    heap w' !! 0%nat = Some merged ∧
    dict_get "B" merged = Some "3" ∧
    dict_get "A" merged = Some "1".
Proof.
  split; [reflexivity|]. split; [reflexivity|].
  destruct (proj1 authenticate_session_right_biased_union merge_world 0%nat
              [("A", "1"); ("B", "2")] 1790742856439)
    as (merged & w' & Hrun & Hheap & Hnew & Hold); [reflexivity..|].
  exists merged, w'. split; [exact Hrun|]. split; [exact Hheap|]. split.
  - apply Hnew. reflexivity.
  - rewrite Hold; reflexivity.
Defined.

(** C2 does not hold as worded: there are no error classes of the
    client's own.  At status 404 every step raises the built-in
    [Exception], so none of them raises the kind the taxonomy names. *)
Lemma non200_error_kinds_counterexample :
  let w := status_world 404 [("XSRF-TOKEN", "f3a1")] in
  ¬ raises_kind create_session w "SessionCreationError" ∧
  ¬ raises_kind (authenticate_session 0%nat) w "AuthenticationError" ∧
  ¬ raises_kind (get_vehicle_data 0%nat "HistoriaPojazdu:1" "WA12345"
                   "1HGCM82633A004352" "2020-01-01") w "FetchError" ∧
  ¬ raises_kind (get_timeline_data 0%nat "HistoriaPojazdu:1" "WA12345"
                   "1HGCM82633A004352" "2020-01-01") w "FetchError" ∧
  ¬ raises_kind (close_session 0%nat "HistoriaPojazdu:1") w "SessionClosureError" ∧
  raises_kind create_session w "Exception" ∧
  raises_kind (authenticate_session 0%nat) w "Exception" ∧
  raises_kind (get_vehicle_data 0%nat "HistoriaPojazdu:1" "WA12345"
                 "1HGCM82633A004352" "2020-01-01") w "Exception" ∧
  raises_kind (get_timeline_data 0%nat "HistoriaPojazdu:1" "WA12345"
                 "1HGCM82633A004352" "2020-01-01") w "Exception" ∧
  raises_kind (close_session 0%nat "HistoriaPojazdu:1") w "Exception".
Proof.
  cbv zeta. repeat split;
    try (intros (e & Hrun & Hkind); vm_compute in Hrun;
         injection Hrun as <-; vm_compute in Hkind; discriminate);
    eexists; split; vm_compute; reflexivity.
Qed.

(** C2, as the code has it.  For every status other than 200 each of the
    five steps raises the built-in [Exception]; what tells the steps apart
    is the message, a fixed text of the step followed by the status code
    in decimal, from which the code can be read back. *)
Theorem non200_raises_exception_with_status
    w session d xsrf nf_wid reg vin date ms status :
  heap w !! session = Some d →
  dict_get "XSRF-TOKEN" d = Some xsrf →
  milliseconds (clock w (clock_reads w)) = Returns ms →
  (∀ rq, status_code (server w (sent w) rq) = status) →
  status ≠ 200 →
  (create_session w).1
    = Raises (Exception ("Failed to create session, status code: " +:+ str_int status))
  ∧ (authenticate_session session w).1
    = Raises (Exception ("Failed to authenticate session, status code: " +:+ str_int status))
  ∧ (get_vehicle_data session nf_wid reg vin date w).1
    = Raises (Exception ("Failed to get vehicle data, status code: " +:+ str_int status))
  ∧ (get_timeline_data session nf_wid reg vin date w).1
    = Raises (Exception ("Failed to get timeline data, status code: " +:+ str_int status))
  ∧ (close_session session nf_wid w).1
    = Raises (Exception ("Failed to close session, status code: " +:+ str_int status))
  ∧ (∀ (text : string) (status' : Z),
       text +:+ str_int status = text +:+ str_int status' → status = status').
Proof.
  intros Hl Hx Hms Hall Hst.
  assert (Hne : ∀ rq, status_code (server w (sent w) rq) ≠ 200).
  { intros rq. by rewrite Hall. }
  repeat split.
  - by rewrite create_session_non200, Hall.
  - by rewrite (authenticate_session_non200 _ _ d ms), Hall.
  - by rewrite (get_vehicle_data_non200 _ _ d xsrf), Hall.
  - by rewrite (get_timeline_data_non200 _ _ d xsrf), Hall.
  - by rewrite (close_session_non200 _ _ d), Hall.
  - intros text status' H. unfold str_int in H.
    apply (inj (String.app text)) in H. by apply (inj pretty) in H.
Qed.

Lemma non200_raises_exception_with_status_witness :
  let w := status_world 404 [("XSRF-TOKEN", "f3a1")] in
  (create_session w).1
    = Raises (Exception ("Failed to create session, status code: " +:+ str_int 404))
  ∧ (authenticate_session 0%nat w).1
    = Raises (Exception ("Failed to authenticate session, status code: " +:+ str_int 404))
  ∧ (get_vehicle_data 0%nat "HistoriaPojazdu:1" "WA12345" "1HGCM82633A004352" "2020-01-01" w).1
    = Raises (Exception ("Failed to get vehicle data, status code: " +:+ str_int 404))
  ∧ (get_timeline_data 0%nat "HistoriaPojazdu:1" "WA12345" "1HGCM82633A004352" "2020-01-01" w).1
    = Raises (Exception ("Failed to get timeline data, status code: " +:+ str_int 404))
  ∧ (close_session 0%nat "HistoriaPojazdu:1" w).1
    = Raises (Exception ("Failed to close session, status code: " +:+ str_int 404))
  ∧ (∀ (text : string) (status' : Z),
       text +:+ str_int 404 = text +:+ str_int status' → 404 = status').
Proof.
  apply (non200_raises_exception_with_status
           (status_world 404 [("XSRF-TOKEN", "f3a1")]) 0%nat
           [("XSRF-TOKEN", "f3a1")] "f3a1" "HistoriaPojazdu:1" "WA12345"
           "1HGCM82633A004352" "2020-01-01" 1790742856439 404).
  - reflexivity.
  - reflexivity.
  - reflexivity.
  - intros rq. reflexivity.
  - lia.
Defined.

(** C3 does not hold as worded: with the key missing from a 200 response
    the fetcher raises the built-in [Exception], and its fixed message
    names the key nowhere. *)
Lemma missing_field_counterexample :
  ∃ e e',
    (get_vehicle_data 0%nat "HistoriaPojazdu:1" "WA12345" "1HGCM82633A004352"
       "2020-01-01" empty_object_world).1 = Raises e
    ∧ exn_class e = "Exception"
    ∧ exn_class e ≠ "MissingFieldError"
    ∧ mentions "technicalData" e = false
    ∧ (get_timeline_data 0%nat "HistoriaPojazdu:1" "WA12345" "1HGCM82633A004352"
         "2020-01-01" empty_object_world).1 = Raises e'
    ∧ exn_class e' = "Exception"
    ∧ exn_class e' ≠ "MissingFieldError"
    ∧ mentions "timelineData" e' = false.
Proof.
  eexists _, _.
  split; [vm_compute; reflexivity|]. split; [reflexivity|].
  split; [discriminate|]. split; [reflexivity|].
  split; [vm_compute; reflexivity|]. split; [reflexivity|].
  split; [discriminate|reflexivity].
Qed.

(** C3, as the code has it.  When a 200 response carries a JSON object,
    each fetcher returns that object unchanged if its key is there, and
    otherwise raises the built-in [Exception] with a fixed message. *)
Theorem fetch_returns_body_or_raises w session d xsrf nf_wid reg vin date :
  heap w !! session = Some d →
  dict_get "XSRF-TOKEN" d = Some xsrf →
  (∀ fields,
     let r := server w (sent w)
                (fetch_request vehicle_data_url d xsrf nf_wid reg vin date) in
     status_code r = 200 → resp_json r = Some (JObj fields) →
     (get_vehicle_data session nf_wid reg vin date w).1
     = if dict_mem "technicalData" fields then Returns (JObj fields)
       else Raises (Exception "Technical data not found in the response."))
  ∧ (∀ fields,
     let r := server w (sent w)
                (fetch_request timeline_data_url d xsrf nf_wid reg vin date) in
     status_code r = 200 → resp_json r = Some (JObj fields) →
     (get_timeline_data session nf_wid reg vin date w).1
     = if dict_mem "timelineData" fields then Returns (JObj fields)
       else Raises (Exception "Timeline data not found in the response.")).
Proof.
  intros Hl Hx. split; intros fields r Hst Hj.
  - by rewrite (get_vehicle_data_200_object _ _ d xsrf _ _ _ _ fields).
  - by rewrite (get_timeline_data_200_object _ _ d xsrf _ _ _ _ fields).
Qed.

Lemma fetch_returns_body_or_raises_witness :
  let body := JObj [("technicalData", JObj [("brand", JStr "HONDA")]);
                    ("timelineData", JArr [])] in
  (get_vehicle_data 0%nat "HistoriaPojazdu:1" "WA12345" "1HGCM82633A004352"
     "2020-01-01" data_world).1 = Returns body
  ∧ (get_timeline_data 0%nat "HistoriaPojazdu:1" "WA12345" "1HGCM82633A004352"
       "2020-01-01" data_world).1 = Returns body
  ∧ (get_vehicle_data 0%nat "HistoriaPojazdu:1" "WA12345" "1HGCM82633A004352"
       "2020-01-01" empty_object_world).1
    = Raises (Exception "Technical data not found in the response.")
  ∧ (get_timeline_data 0%nat "HistoriaPojazdu:1" "WA12345" "1HGCM82633A004352"
       "2020-01-01" empty_object_world).1
    = Raises (Exception "Timeline data not found in the response.").
Proof.
  destruct (fetch_returns_body_or_raises data_world 0%nat
              [("XSRF-TOKEN", "f3a1")] "f3a1" "HistoriaPojazdu:1" "WA12345"
              "1HGCM82633A004352" "2020-01-01") as [Hv Ht]; [reflexivity..|].
  destruct (fetch_returns_body_or_raises empty_object_world 0%nat
              [("XSRF-TOKEN", "f3a1")] "f3a1" "HistoriaPojazdu:1" "WA12345"
              "1HGCM82633A004352" "2020-01-01") as [Hv' Ht']; [reflexivity..|].
  cbv zeta. split; [|split; [|split]].
  - apply (Hv [("technicalData", JObj [("brand", JStr "HONDA")]);
               ("timelineData", JArr [])]); reflexivity.
  - apply (Ht [("technicalData", JObj [("brand", JStr "HONDA")]);
               ("timelineData", JArr [])]); reflexivity.
  - apply (Hv' []); reflexivity.
  - apply (Ht' []); reflexivity.
Defined.

(** C4. An authentication that is answered with 200 returns the identifier
    [HistoriaPojazdu:<n>], where [n] is the wall-clock time in milliseconds:
    for a clock reading of [t = m * 2^e] seconds, below [2^41], the integer
    is [int(round(t * 1000))], it is not negative and it is less than one
    millisecond away from [1000 * t] (both counted in units of [2^-1117]
    milliseconds, in which they are whole numbers).  The call reads the
    clock once and builds the identifier once, the one it returns being
    the one it sent; and of two calls, the one that reads the later time
    gets the integer that is no smaller. *)
Theorem session_identifier_from_clock
    w1 w2 session1 session2 old1 old2 m1 e1 m2 e2 :
  let t1 := S754_finite false m1 e1 in
  let t2 := S754_finite false m2 e2 in
  clock w1 (clock_reads w1) = t1 →
  clock w2 (clock_reads w2) = t2 →
  valid_binary 53 1024 t1 = true → e1 ≤ -12 →
  valid_binary 53 1024 t2 = true → e2 ≤ -12 →
  SFleb t1 t2 = true →
  heap w1 !! session1 = Some old1 →
  heap w2 !! session2 = Some old2 →
  (∀ rq, status_code (server w1 (sent w1) rq) = 200) →
  (∀ rq, status_code (server w2 (sent w2) rq) = 200) →
  ∃ ms1 ms2 id1 id2 rq1 rq2 w1' w2',
    milliseconds t1 = Returns ms1 ∧
    milliseconds t2 = Returns ms2 ∧
    0 ≤ ms1 ∧
    Z.abs (ms1 * 2 ^ 1117 - 1000 * (Z.pos m1 * 2 ^ (e1 + 1117))) < 2 ^ 1117 ∧
    0 ≤ ms2 ∧
    Z.abs (ms2 * 2 ^ 1117 - 1000 * (Z.pos m2 * 2 ^ (e2 + 1117))) < 2 ^ 1117 ∧
    authenticate_session session1 w1 = (Returns (session1, id1), w1') ∧
    authenticate_session session2 w2 = (Returns (session2, id2), w2') ∧
    id1 = "HistoriaPojazdu:" +:+ str_int ms1 ∧
    id2 = "HistoriaPojazdu:" +:+ str_int ms2 ∧
    clock_reads w1' = S (clock_reads w1) ∧
    clock_reads w2' = S (clock_reads w2) ∧
    calls_during w1 w1' = [rq1] ∧ req_payload rq1 = FormData ("NF_WID=" +:+ id1) ∧
    calls_during w2 w2' = [rq2] ∧ req_payload rq2 = FormData ("NF_WID=" +:+ id2) ∧
    ms1 ≤ ms2.
Proof.
  intros t1 t2 Hc1 Hc2 Hv1 He1 Hv2 He2 Hle Hl1 Hl2 Hst1 Hst2.
  assert (Ht1 : is_time t1 = true).
  { cbn [is_time t1]. apply andb_true_intro. split; [done|]. apply Z.leb_le. lia. }
  assert (Ht2 : is_time t2 = true).
  { cbn [is_time t2]. apply andb_true_intro. split; [done|]. apply Z.leb_le. lia. }
  destruct (is_time_milliseconds t1 Ht1) as [ms1 Hms1].
  destruct (is_time_milliseconds t2 Ht2) as [ms2 Hms2].
  destruct (milliseconds_close m1 e1 ms1 Hv1 He1 Hms1) as [Hpos1 Hclose1].
  destruct (milliseconds_close m2 e2 ms2 Hv2 He2 Hms2) as [Hpos2 Hclose2].
  exists ms1, ms2, (nfwid_of ms1), (nfwid_of ms2),
    (authenticate_request old1 ms1), (authenticate_request old2 ms2).
  eexists _, _.
  do 6 (split; [done|]).
  split; [apply (authenticate_session_200 _ _ old1 ms1); [done|by rewrite Hc1|done]|].
  split; [apply (authenticate_session_200 _ _ old2 ms2); [done|by rewrite Hc2|done]|].
  do 4 (split; [reflexivity|]).
  unfold calls_during. cbn [set_heap log_call tick sent].
  rewrite !drop_app_length.
  do 4 (split; [reflexivity|]).
  by apply (milliseconds_mono t1 t2).
Qed.

Lemma session_identifier_from_clock_witness :
  ∃ ms1 ms2 id1 id2 rq1 rq2 w1' w2',
    milliseconds sample_reading = Returns ms1 ∧
    milliseconds later_reading = Returns ms2 ∧
    0 ≤ ms1 ∧
    Z.abs (ms1 * 2 ^ 1117 - 1000 * (7510919925734553 * 2 ^ (-22 + 1117))) < 2 ^ 1117 ∧
    0 ≤ ms2 ∧
    Z.abs (ms2 * 2 ^ 1117 - 1000 * (7510919925739819 * 2 ^ (-22 + 1117))) < 2 ^ 1117 ∧
    authenticate_session 0%nat merge_world = (Returns (0%nat, id1), w1') ∧
    authenticate_session 0%nat (set_clock later_reading merge_world)
      = (Returns (0%nat, id2), w2') ∧
    id1 = "HistoriaPojazdu:" +:+ str_int ms1 ∧
    id2 = "HistoriaPojazdu:" +:+ str_int ms2 ∧
    clock_reads w1' = S (clock_reads merge_world) ∧
    clock_reads w2' = S (clock_reads (set_clock later_reading merge_world)) ∧
    calls_during merge_world w1' = [rq1] ∧
    req_payload rq1 = FormData ("NF_WID=" +:+ id1) ∧
    calls_during (set_clock later_reading merge_world) w2' = [rq2] ∧
    req_payload rq2 = FormData ("NF_WID=" +:+ id2) ∧
    ms1 ≤ ms2.
Proof.
  apply (session_identifier_from_clock merge_world (set_clock later_reading merge_world)
           0%nat 0%nat [("A", "1"); ("B", "2")] [("A", "1"); ("B", "2")]
           7510919925734553 (-22) 7510919925739819 (-22));
    try reflexivity; try lia; intros rq; reflexivity.
Defined.

(** C5. The identifier is a function of the millisecond value the call
    reads off the clock: two successful calls that read the same value
    return the same identifier, two that read different values return
    different identifiers. *)
Theorem nfwid_determined_by_clock w1 w2 session1 session2 old1 old2 ms1 ms2 :
  heap w1 !! session1 = Some old1 →
  heap w2 !! session2 = Some old2 →
  milliseconds (clock w1 (clock_reads w1)) = Returns ms1 →
  milliseconds (clock w2 (clock_reads w2)) = Returns ms2 →
  status_code (server w1 (sent w1) (authenticate_request old1 ms1)) = 200 →
  status_code (server w2 (sent w2) (authenticate_request old2 ms2)) = 200 →
  ∃ id1 id2,
    (authenticate_session session1 w1).1 = Returns (session1, id1) ∧
    (authenticate_session session2 w2).1 = Returns (session2, id2) ∧
    (ms1 = ms2 → id1 = id2) ∧
    (ms1 ≠ ms2 → id1 ≠ id2).
Proof.
  intros Hl1 Hl2 Hms1 Hms2 Hst1 Hst2.
  exists (nfwid_of ms1), (nfwid_of ms2).
  rewrite (authenticate_session_200 _ _ old1 ms1), (authenticate_session_200 _ _ old2 ms2)
    by done.
  repeat split.
  - by intros ->.
  - intros Hne Heq. by apply Hne, nfwid_of_inj.
Qed.

Lemma nfwid_determined_by_clock_witness :
  ∃ id1 id2,
    (authenticate_session 0%nat merge_world).1 = Returns (0%nat, id1) ∧
    (authenticate_session 0%nat (set_clock later_reading merge_world)).1
      = Returns (0%nat, id2) ∧
    (1790742856439 = 1790742856441 → id1 = id2) ∧
    (1790742856439 ≠ 1790742856441 → id1 ≠ id2).
Proof.
  apply (nfwid_determined_by_clock merge_world (set_clock later_reading merge_world)
           0%nat 0%nat [("A", "1"); ("B", "2")] [("A", "1"); ("B", "2")]);
    reflexivity.
Defined.

(** C6. With an [XSRF-TOKEN] cookie in the set, each fetcher makes exactly
    one call: a POST to its endpoint, with the token and the session
    identifier among the headers and a JSON body of exactly the three
    query fields. *)
Theorem fetchers_send_one_json_post w session d xsrf nf_wid reg vin date :
  heap w !! session = Some d →
  dict_get "XSRF-TOKEN" d = Some xsrf →
  ∃ headers,
    sent (get_vehicle_data session nf_wid reg vin date w).2
    = (sent w ++ [ {| req_method := POST;
                     req_url := api_root +:+ "data/vehicle-data";
                     req_headers := Some headers;
                     req_cookies := Some d;
                     req_payload := JsonData [("registrationNumber", reg);
                                              ("VINNumber", vin);
                                              ("firstRegistrationDate", date)] |} ])%list
    ∧ sent (get_timeline_data session nf_wid reg vin date w).2
    = (sent w ++ [ {| req_method := POST;
                     req_url := api_root +:+ "data/timeline-data";
                     req_headers := Some headers;
                     req_cookies := Some d;
                     req_payload := JsonData [("registrationNumber", reg);
                                              ("VINNumber", vin);
                                              ("firstRegistrationDate", date)] |} ])%list
    ∧ dict_get "X-Xsrf-Token" headers = Some xsrf
    ∧ dict_get "Nf_wid" headers = Some nf_wid.
Proof.
  intros Hl Hx. exists (fetch_headers xsrf nf_wid).
  rewrite (get_vehicle_data_sends _ _ d xsrf), (get_timeline_data_sends _ _ d xsrf) by done.
  repeat split.
Qed.

Lemma fetchers_send_one_json_post_witness :
  ∃ headers,
    sent (get_vehicle_data 0%nat "HistoriaPojazdu:1" "WA12345" "1HGCM82633A004352"
            "2020-01-01" empty_object_world).2
    = (sent empty_object_world
      ++ [ {| req_method := POST;
              req_url := api_root +:+ "data/vehicle-data";
              req_headers := Some headers;
              req_cookies := Some [("XSRF-TOKEN", "f3a1")];
              req_payload := JsonData [("registrationNumber", "WA12345");
                                       ("VINNumber", "1HGCM82633A004352");
                                       ("firstRegistrationDate", "2020-01-01")] |} ])%list
    ∧ sent (get_timeline_data 0%nat "HistoriaPojazdu:1" "WA12345" "1HGCM82633A004352"
              "2020-01-01" empty_object_world).2
    = (sent empty_object_world
      ++ [ {| req_method := POST;
              req_url := api_root +:+ "data/timeline-data";
              req_headers := Some headers;
              req_cookies := Some [("XSRF-TOKEN", "f3a1")];
              req_payload := JsonData [("registrationNumber", "WA12345");
                                       ("VINNumber", "1HGCM82633A004352");
                                       ("firstRegistrationDate", "2020-01-01")] |} ])%list
    ∧ dict_get "X-Xsrf-Token" headers = Some "f3a1"
    ∧ dict_get "Nf_wid" headers = Some "HistoriaPojazdu:1".
Proof.
  apply (fetchers_send_one_json_post empty_object_world 0%nat
           [("XSRF-TOKEN", "f3a1")] "f3a1"); reflexivity.
Defined.

(** C7. In a run of the scenario where every response has status 200 and
    the vehicle-data request is answered with an object that has
    [technicalData], the fetch returns that object and the closer
    completes, printing its line, without an exception. *)
Theorem end_to_end_success w reg vin date :
  (∀ hist rq, status_code (server w hist rq) = 200) →
  (∀ hist rq, req_url rq = vehicle_data_url →
     ∃ fields, resp_json (server w hist rq) = Some (JObj fields)
               ∧ dict_mem "technicalData" fields = true) →
  (∃ rq, rq ∈ calls_during w (end_to_end reg vin date w).2
         ∧ req_url rq = vehicle_data_url) →
  ∃ fields,
    (end_to_end reg vin date w).1 = Returns (JObj fields)
    ∧ dict_mem "technicalData" fields = true
    ∧ stdout (end_to_end reg vin date w).2
      = (stdout w ++ ["Session closed successfully."])%list
    ∧ length (calls_during w (end_to_end reg vin date w).2) = 4%nat.
Proof.
  intros Hst Hjson Hsent. unfold end_to_end in *.
  rewrite bind_run, create_session_200 in * by apply Hst.
  set (l := fresh (dom (heap w))) in *.
  set (c1 := resp_cookies (server w (sent w) create_request)) in *.
  set (w1 := set_heap (<[l := c1]> (heap w)) (log_call create_request w)) in *.
  assert (Hl1 : heap w1 !! l = Some c1) by apply lookup_insert_eq.
  rewrite bind_run in *.
  destruct (milliseconds (clock w1 (clock_reads w1))) as [ms|e] eqn:Hms.
  2:{ rewrite (authenticate_session_clock_raises _ _ e) in Hsent by done.
      exfalso. destruct Hsent as (rq & Hin & Hurl).
      unfold calls_during in Hin. cbn [snd w1 tick set_heap log_call sent] in Hin.
      rewrite drop_app_length in Hin.
      apply list_elem_of_singleton in Hin as ->. discriminate Hurl. }
  rewrite (authenticate_session_200 _ _ c1 ms) in * by (done || apply Hst).
  set (rq2 := authenticate_request c1 ms) in *.
  set (c2 := copy_keys _ _ c1) in *.
  set (w2 := set_heap (<[l := c2]> (heap w1)) (log_call rq2 (tick w1))) in *.
  assert (Hl2 : heap w2 !! l = Some c2) by apply lookup_insert_eq.
  rewrite bind_run in *.
  destruct (dict_get "XSRF-TOKEN" c2) as [xsrf|] eqn:Hx.
  2:{ exfalso. destruct Hsent as (rq & Hin & Hurl). revert Hin.
      unfold get_vehicle_data. rewrite bind_run, (getitem_missing _ _ c2) by done.
      unfold calls_during. cbn [snd w2 w1 tick set_heap log_call sent].
      rewrite <- app_assoc, drop_app_length. cbn [app].
      rewrite !elem_of_cons, elem_of_nil. intros [->|[->|[]]]; discriminate Hurl. }
  clear Hsent.
  set (rq3 := fetch_request vehicle_data_url c2 xsrf (nfwid_of ms) reg vin date).
  destruct (Hjson (sent w2) rq3 eq_refl) as (fields & Hj & Hmem).
  exists fields.
  rewrite (get_vehicle_data_200_object _ _ c2 xsrf _ _ _ _ fields) by (done || apply Hst).
  fold rq3. rewrite Hmem. rewrite bind_run.
  rewrite (close_session_200 _ _ c2) by (done || apply Hst).
  cbn [fst snd ret]. split; [done|]. split; [done|]. split; [done|].
  unfold calls_during. cbn [w2 w1 tick set_heap log_call write_line sent].
  rewrite <- !app_assoc, drop_app_length. reflexivity.
Qed.

Lemma end_to_end_success_witness :
  ∃ fields,
    (end_to_end "WA12345" "1HGCM82633A004352" "2020-01-01" portal_world).1
      = Returns (JObj fields)
    ∧ dict_mem "technicalData" fields = true
    ∧ stdout (end_to_end "WA12345" "1HGCM82633A004352" "2020-01-01" portal_world).2
      = (stdout portal_world ++ ["Session closed successfully."])%list
    ∧ length (calls_during portal_world
                (end_to_end "WA12345" "1HGCM82633A004352" "2020-01-01" portal_world).2)
      = 4%nat.
Proof.
  apply (end_to_end_success portal_world "WA12345" "1HGCM82633A004352" "2020-01-01").
  - intros hist rq. reflexivity.
  - intros hist rq Hurl. exists [("technicalData", JObj [("brand", JStr "HONDA")])].
    cbn. rewrite Hurl. split; reflexivity.
  - eexists. split.
    + unfold calls_during. vm_compute.
      apply elem_of_cons. right. apply elem_of_cons. right. apply elem_of_cons. by left.
    + reflexivity.
Defined.

(** C8. The two loops of the authenticator together are one plain
    [update] of the old cookies with the response cookies, and the second
    loop by itself never changes anything: it reads and writes the same
    dict object. *)
Theorem two_phase_merge_is_update w session old ms :
  heap w !! session = Some old →
  milliseconds (clock w (clock_reads w)) = Returns ms →
  let r := server w (sent w) (authenticate_request old ms) in
  status_code r = 200 →
  NoDup (dict_keys (resp_cookies r)) →
  authenticate_session session w
    = (Returns (session, nfwid_of ms),
       set_heap (<[session := dict_update old (resp_cookies r)]> (heap w))
         (log_call (authenticate_request old ms) (tick w)))
  ∧ (copy_response_cookies session (resp_cookies r) ;;
     restore_absent_cookies session session (resp_cookies r)) w
    = copy_response_cookies session (resp_cookies r) w
  ∧ ∀ w1 d, heap w1 !! session = Some d →
      restore_absent_cookies session session (resp_cookies r) w1 = (Returns tt, w1).
Proof.
  intros Hl Hms r Hst Hnd. split; [|split].
  - rewrite (authenticate_session_200 _ _ old ms) by done. fold r.
    by rewrite copy_keys_update.
  - rewrite bind_run, (copy_response_cookies_run _ _ old) by done.
    apply (restore_absent_cookies_run _ _
             (copy_keys (resp_cookies r) (dict_keys (resp_cookies r)) old)).
    cbn [set_heap heap]. apply lookup_insert_eq.
  - intros w1 d Hd. by apply (restore_absent_cookies_run _ _ d).
Qed.

Lemma two_phase_merge_is_update_witness :
  authenticate_session 0%nat merge_world
    = (Returns (0%nat, nfwid_of 1790742856439),
       set_heap (<[0%nat := dict_update [("A", "1"); ("B", "2")] [("B", "3"); ("C", "4")]]>
                   (heap merge_world))
         (log_call (authenticate_request [("A", "1"); ("B", "2")] 1790742856439)
            (tick merge_world))).
Proof.
  refine (proj1 (two_phase_merge_is_update merge_world 0%nat
                   [("A", "1"); ("B", "2")] 1790742856439 _ _ _ _)).
  - reflexivity.
  - reflexivity.
  - reflexivity.
  - apply (bool_decide_unpack _). vm_compute. exact I.
Defined.

(** C9. When the authentication POST is answered with a status other than
    200, the authenticator raises without touching any dict: the heap,
    and with it the caller's cookie set, is as before the call. *)
Theorem authenticate_session_error_keeps_cookies w session old ms :
  heap w !! session = Some old →
  milliseconds (clock w (clock_reads w)) = Returns ms →
  status_code (server w (sent w) (authenticate_request old ms)) ≠ 200 →
  ∃ e w',
    authenticate_session session w = (Raises e, w') ∧
    heap w' = heap w ∧
    heap w' !! session = Some old.
Proof.
  intros Hl Hms Hst. eexists _, _.
  split; [by apply (authenticate_session_non200 _ _ old ms)|].
  cbn [log_call tick heap]. done.
Qed.

Lemma authenticate_session_error_keeps_cookies_witness :
  ∃ e w',
    authenticate_session 0%nat (status_world 503 [("A", "1"); ("B", "2")]) = (Raises e, w') ∧
    heap w' = heap (status_world 503 [("A", "1"); ("B", "2")]) ∧
    heap w' !! 0%nat = Some [("A", "1"); ("B", "2")].
Proof.
  apply (authenticate_session_error_keeps_cookies
           (status_world 503 [("A", "1"); ("B", "2")]) 0%nat
           [("A", "1"); ("B", "2")] 1790742856439).
  - reflexivity.
  - reflexivity.
  - cbn. lia.
Defined.

(** C10. Without an [XSRF-TOKEN] cookie each fetcher raises [KeyError]
    while it builds the headers: the world is untouched, so no request has
    gone out, and the exception is neither of a kind the taxonomy names
    nor the [Exception] the client raises itself. *)
Theorem fetchers_without_token_raise_keyerror w session d nf_wid reg vin date :
  heap w !! session = Some d →
  dict_get "XSRF-TOKEN" d = None →
  get_vehicle_data session nf_wid reg vin date w = (Raises (KeyError "XSRF-TOKEN"), w)
  ∧ get_timeline_data session nf_wid reg vin date w = (Raises (KeyError "XSRF-TOKEN"), w)
  ∧ calls_during w (get_vehicle_data session nf_wid reg vin date w).2 = []
  ∧ calls_during w (get_timeline_data session nf_wid reg vin date w).2 = []
  ∧ exn_class (KeyError "XSRF-TOKEN") ∉ "Exception" :: taxonomy.
Proof.
  intros Hl Hx.
  assert (Hv : get_vehicle_data session nf_wid reg vin date w
               = (Raises (KeyError "XSRF-TOKEN"), w)).
  { unfold get_vehicle_data. by rewrite bind_run, (getitem_missing _ _ d). }
  assert (Ht : get_timeline_data session nf_wid reg vin date w
               = (Raises (KeyError "XSRF-TOKEN"), w)).
  { unfold get_timeline_data. by rewrite bind_run, (getitem_missing _ _ d). }
  rewrite Hv, Ht. unfold calls_during. cbn [snd]. rewrite drop_all.
  repeat split.
  unfold taxonomy. rewrite !not_elem_of_cons. repeat split; try discriminate.
  apply not_elem_of_nil.
Qed.

Lemma fetchers_without_token_raise_keyerror_witness :
  let w := status_world 200 [("NFJSESSIONID", "9c2e")] in
  get_vehicle_data 0%nat "HistoriaPojazdu:1" "WA12345" "1HGCM82633A004352" "2020-01-01" w
    = (Raises (KeyError "XSRF-TOKEN"), w)
  ∧ get_timeline_data 0%nat "HistoriaPojazdu:1" "WA12345" "1HGCM82633A004352" "2020-01-01" w
    = (Raises (KeyError "XSRF-TOKEN"), w)
  ∧ calls_during w (get_vehicle_data 0%nat "HistoriaPojazdu:1" "WA12345"
                      "1HGCM82633A004352" "2020-01-01" w).2 = []
  ∧ calls_during w (get_timeline_data 0%nat "HistoriaPojazdu:1" "WA12345"
                      "1HGCM82633A004352" "2020-01-01" w).2 = []
  ∧ exn_class (KeyError "XSRF-TOKEN") ∉ "Exception" :: taxonomy.
Proof.
  apply (fetchers_without_token_raise_keyerror
           (status_world 200 [("NFJSESSIONID", "9c2e")]) 0%nat
           [("NFJSESSIONID", "9c2e")]); reflexivity.
Defined.

(** * Further properties of the client *)

(** ** What the fetchers and the closer leave alone *)

Lemma keeps_dicts_bind {A B} (c : M A) (k : A → M B) :
  keeps_dicts c → (∀ a, keeps_dicts (k a)) → keeps_dicts (c ≫= k).
Proof.
  intros Hc Hk w. rewrite bind_run. specialize (Hc w).
  destruct (c w) as [[a|e] w']; cbn [snd] in *; [|done].
  destruct (Hk a w') as [Hh Hr]. by rewrite Hh, Hr.
Qed.

Lemma keeps_dicts_ret {A} (a : A) : keeps_dicts (ret a).
Proof. done. Qed.

Lemma keeps_dicts_raise {A} (e : exn) : keeps_dicts (@raise A e).
Proof. done. Qed.

Lemma keeps_dicts_load l : keeps_dicts (load l).
Proof. intros w. unfold load. by destruct (heap w !! l). Qed.

Lemma keeps_dicts_getitem l k : keeps_dicts (getitem l k).
Proof.
  apply keeps_dicts_bind; [apply keeps_dicts_load|].
  intros d. unfold subscript. by destruct (dict_get k d).
Qed.

Lemma keeps_dicts_send m url headers cookies body :
  keeps_dicts (send m url headers cookies body).
Proof.
  apply keeps_dicts_bind; [|done].
  destruct cookies as [l|]; [|done].
  apply keeps_dicts_bind; [apply keeps_dicts_load|done].
Qed.

Lemma keeps_dicts_py_in key j : keeps_dicts (py_in key j).
Proof. by destruct j. Qed.

Lemma keeps_dicts_r_json r : keeps_dicts (r_json r).
Proof. unfold r_json. by destruct (resp_json r). Qed.

(** X7. Neither fetcher and not the closer ever changes a cookie dict or
    reads the clock, whatever the server answers and whatever they are
    given. *)
Theorem fetchers_and_closer_keep_dicts session nf_wid reg vin date :
  keeps_dicts (get_vehicle_data session nf_wid reg vin date)
  ∧ keeps_dicts (get_timeline_data session nf_wid reg vin date)
  ∧ keeps_dicts (close_session session nf_wid).
Proof.
  split; [|split].
  - apply keeps_dicts_bind; [apply keeps_dicts_getitem|]. intros xsrf.
    apply keeps_dicts_bind; [apply keeps_dicts_send|]. intros r.
    destruct (status_code r =? 200); [|done].
    apply keeps_dicts_bind; [apply keeps_dicts_r_json|]. intros j.
    apply keeps_dicts_bind; [apply keeps_dicts_py_in|]. by intros [].
  - apply keeps_dicts_bind; [apply keeps_dicts_getitem|]. intros xsrf.
    apply keeps_dicts_bind; [apply keeps_dicts_send|]. intros r.
    destruct (status_code r =? 200); [|done].
    apply keeps_dicts_bind; [apply keeps_dicts_r_json|]. intros j.
    apply keeps_dicts_bind; [apply keeps_dicts_py_in|]. by intros [].
  - apply keeps_dicts_bind; [apply keeps_dicts_send|]. intros r.
    by destruct (status_code r =? 200).
Qed.

(** ** The closer *)

(** X8. Given a cookie dict, the closer makes exactly one call whatever
    the answer: a GET to the close endpoint with the session identifier in
    the [Nf_wid] header and the cookies as they are.  It prints its line
    and returns on 200; on any other status it prints nothing and raises. *)
Theorem close_session_one_get w session d nf_wid :
  heap w !! session = Some d →
  let rq := {| req_method := GET;
               req_url := api_root +:+ "close";
               req_headers := Some [("Accept-Language", "pl-PL,pl;q=0.9");
                                    ("Content-Type", "application/json, text/plain, */*");
                                    ("Nf_wid", nf_wid)];
               req_cookies := Some d;
               req_payload := NoPayload |} in
  let r := server w (sent w) rq in
  calls_during w (close_session session nf_wid w).2 = [rq]
  ∧ (status_code r = 200 →
       (close_session session nf_wid w).1 = Returns tt
       ∧ stdout (close_session session nf_wid w).2
         = (stdout w ++ ["Session closed successfully."])%list)
  ∧ (status_code r ≠ 200 →
       (∃ msg, (close_session session nf_wid w).1 = Raises (Exception msg))
       ∧ stdout (close_session session nf_wid w).2 = stdout w).
Proof.
  intros Hl rq r. change rq with (close_request d nf_wid) in *.
  destruct (Z.eq_dec (status_code r) 200) as [Hst|Hst].
  - rewrite (close_session_200 _ _ d) by done.
    unfold calls_during. cbn [snd fst write_line log_call sent stdout].
    rewrite drop_app_length. split; [done|]. split; [by intros _|].
    intros Hne. by destruct Hne.
  - rewrite (close_session_non200 _ _ d) by done.
    unfold calls_during. cbn [snd fst log_call sent stdout].
    rewrite drop_app_length. split; [done|]. split; [intros Heq; by destruct Hst|].
    intros _. split; [by eexists|done].
Qed.

Lemma close_session_one_get_witness :
  let w := status_world 200 [("XSRF-TOKEN", "f3a1")] in
  calls_during w (close_session 0%nat "HistoriaPojazdu:1" w).2
    = [close_request [("XSRF-TOKEN", "f3a1")] "HistoriaPojazdu:1"]
  ∧ (close_session 0%nat "HistoriaPojazdu:1" w).1 = Returns tt
  ∧ stdout (close_session 0%nat "HistoriaPojazdu:1" w).2
    = ["Session closed successfully."].
Proof.
  destruct (close_session_one_get (status_world 200 [("XSRF-TOKEN", "f3a1")]) 0%nat
              [("XSRF-TOKEN", "f3a1")] "HistoriaPojazdu:1" eq_refl)
    as (Hcalls & H200 & _).
  destruct (H200 eq_refl) as [Hret Hout].
  cbv zeta. split; [exact Hcalls|]. split; [exact Hret|exact Hout].
Defined.

(** X9. The client keeps no record that a session was closed: after a
    close that succeeded, a fetch on the same cookie dict still goes out,
    with the same cookies and token. *)
Theorem fetch_after_close_still_sends w session d xsrf nf_wid reg vin date :
  heap w !! session = Some d →
  dict_get "XSRF-TOKEN" d = Some xsrf →
  status_code (server w (sent w) (close_request d nf_wid)) = 200 →
  calls_during w
    ((close_session session nf_wid ;;
      get_vehicle_data session nf_wid reg vin date) w).2
  = [close_request d nf_wid;
     fetch_request vehicle_data_url d xsrf nf_wid reg vin date]
  ∧ calls_during w
      ((close_session session nf_wid ;;
        get_timeline_data session nf_wid reg vin date) w).2
    = [close_request d nf_wid;
       fetch_request timeline_data_url d xsrf nf_wid reg vin date].
Proof.
  intros Hl Hx Hst.
  rewrite !bind_run, (close_session_200 _ _ d) by done.
  set (w1 := write_line _ _).
  assert (Hl1 : heap w1 !! session = Some d) by done.
  rewrite (get_vehicle_data_sends _ _ d xsrf), (get_timeline_data_sends _ _ d xsrf) by done.
  unfold calls_during. cbn [w1 log_call write_line sent].
  by rewrite <- !app_assoc, !drop_app_length.
Qed.

Lemma fetch_after_close_still_sends_witness :
  let w := reply_world [("XSRF-TOKEN", "f3a1")] [] (Some (JObj [])) in
  calls_during w
    ((close_session 0%nat "HistoriaPojazdu:1" ;;
      get_vehicle_data 0%nat "HistoriaPojazdu:1" "WA12345" "1HGCM82633A004352"
        "2020-01-01") w).2
  = [close_request [("XSRF-TOKEN", "f3a1")] "HistoriaPojazdu:1";
     fetch_request vehicle_data_url [("XSRF-TOKEN", "f3a1")] "f3a1" "HistoriaPojazdu:1"
       "WA12345" "1HGCM82633A004352" "2020-01-01"]
  ∧ calls_during w
      ((close_session 0%nat "HistoriaPojazdu:1" ;;
        get_timeline_data 0%nat "HistoriaPojazdu:1" "WA12345" "1HGCM82633A004352"
          "2020-01-01") w).2
    = [close_request [("XSRF-TOKEN", "f3a1")] "HistoriaPojazdu:1";
       fetch_request timeline_data_url [("XSRF-TOKEN", "f3a1")] "f3a1" "HistoriaPojazdu:1"
         "WA12345" "1HGCM82633A004352" "2020-01-01"].
Proof.
  apply (fetch_after_close_still_sends
           (reply_world [("XSRF-TOKEN", "f3a1")] [] (Some (JObj []))) 0%nat
           [("XSRF-TOKEN", "f3a1")] "f3a1"); reflexivity.
Defined.

(** ** The initiator *)

(** X1. On 200 the initiator returns a dict object that was not there
    before, holding exactly the cookies of the response; every dict that was
    there is as it was.  Whatever the answer, it has made one call: a GET
    to the entry URL with no headers, cookies or body of its own. *)
Theorem create_session_new_dict w :
  let rq := {| req_method := GET; req_url := entry_url; req_headers := None;
               req_cookies := None; req_payload := NoPayload |} in
  let r := server w (sent w) rq in
  calls_during w (create_session w).2 = [rq]
  ∧ (status_code r = 200 →
       ∃ l, (create_session w).1 = Returns l
            ∧ heap w !! l = None
            ∧ heap (create_session w).2 !! l = Some (resp_cookies r)
            ∧ ∀ l', l' ≠ l → heap (create_session w).2 !! l' = heap w !! l').
Proof.
  intros rq r. change rq with create_request in *.
  destruct (Z.eq_dec (status_code r) 200) as [Hst|Hst].
  - rewrite create_session_200 by done. fold r.
    unfold calls_during. cbn [fst snd set_heap log_call sent heap].
    rewrite drop_app_length. split; [done|]. intros _.
    exists (fresh (dom (heap w))). split; [done|]. split.
    + apply not_elem_of_dom, is_fresh.
    + split; [apply lookup_insert_eq|].
      intros l' Hne. by apply lookup_insert_ne.
  - rewrite create_session_non200 by done.
    unfold calls_during. cbn [fst snd log_call sent].
    rewrite drop_app_length. split; [done|]. intros Heq. by destruct Hst.
Qed.

Lemma create_session_new_dict_witness :
  ∃ l, (create_session merge_world).1 = Returns l
       ∧ heap merge_world !! l = None
       ∧ heap (create_session merge_world).2 !! l = Some [("B", "3"); ("C", "4")]
       ∧ ∀ l', l' ≠ l → heap (create_session merge_world).2 !! l' = heap merge_world !! l'.
Proof.
  apply (proj2 (create_session_new_dict merge_world)). reflexivity.
Defined.

(** X2. Two sessions initiated one after the other get two different dict
    objects, each holding the cookies of its own response. *)
Theorem create_session_twice_distinct w :
  let r1 := server w (sent w) create_request in
  let r2 := server w (sent w ++ [create_request]) create_request in
  status_code r1 = 200 →
  status_code r2 = 200 →
  ∃ l1 l2 w',
    (s1 ← create_session; s2 ← create_session; ret (s1, s2)) w
      = (Returns (l1, l2), w')
    ∧ l1 ≠ l2
    ∧ heap w' !! l1 = Some (resp_cookies r1)
    ∧ heap w' !! l2 = Some (resp_cookies r2).
Proof.
  intros r1 r2 Hst1 Hst2.
  rewrite bind_run, create_session_200 by done. fold r1.
  set (l1 := fresh (dom (heap w))).
  set (w1 := set_heap _ _).
  rewrite bind_run, create_session_200 by done.
  change (server w1 (sent w1) create_request) with r2.
  set (l2 := fresh (dom (heap w1))).
  assert (Hne : l1 ≠ l2).
  { intros Heq. apply (is_fresh (dom (heap w1))). fold l2. rewrite <- Heq.
    apply elem_of_dom. exists (resp_cookies r1). apply lookup_insert_eq. }
  eexists l1, l2, _. split; [reflexivity|]. split; [done|].
  cbn [set_heap heap]. split.
  - rewrite lookup_insert_ne by done. apply lookup_insert_eq.
  - apply lookup_insert_eq.
Qed.

Lemma create_session_twice_distinct_witness :
  ∃ l1 l2 w',
    (s1 ← create_session; s2 ← create_session; ret (s1, s2)) portal_world
      = (Returns (l1, l2), w')
    ∧ l1 ≠ l2
    ∧ heap w' !! l1 = Some [("NFJSESSIONID", "9c2e")]
    ∧ heap w' !! l2 = Some [("NFJSESSIONID", "9c2e")].
Proof.
  apply (create_session_twice_distinct portal_world); reflexivity.
Defined.

(** ** The authenticator *)

(** X3. Given a cookie dict and a clock reading that converts, the
    authenticator reads the clock once and makes exactly one call whatever
    the answer: a form POST to the entry URL whose body is
    [NF_WID=HistoriaPojazdu:<ms>] and whose cookies are the caller's as
    they were before the call, also when the call goes on to merge. *)
Theorem authenticate_session_one_post w session old ms :
  heap w !! session = Some old →
  milliseconds (clock w (clock_reads w)) = Returns ms →
  calls_during w (authenticate_session session w).2
  = [ {| req_method := POST;
         req_url := entry_url;
         req_headers := Some [("Accept-Language", "pl-PL,pl;q=0.9");
                              ("Content-Type", "application/x-www-form-urlencoded")];
         req_cookies := Some old;
         req_payload := FormData ("NF_WID=HistoriaPojazdu:" +:+ str_int ms) |} ]
  ∧ clock_reads (authenticate_session session w).2 = S (clock_reads w).
Proof.
  intros Hl Hms.
  destruct (Z.eq_dec (status_code (server w (sent w) (authenticate_request old ms))) 200)
    as [Hst|Hst].
  - rewrite (authenticate_session_200 _ _ old ms) by done.
    unfold calls_during. cbn [snd set_heap log_call tick sent clock_reads].
    by rewrite drop_app_length.
  - rewrite (authenticate_session_non200 _ _ old ms) by done.
    unfold calls_during. cbn [snd log_call tick sent clock_reads].
    by rewrite drop_app_length.
Qed.

Lemma authenticate_session_one_post_witness :
  calls_during (status_world 503 [("A", "1"); ("B", "2")])
    (authenticate_session 0%nat (status_world 503 [("A", "1"); ("B", "2")])).2
  = [ {| req_method := POST;
         req_url := entry_url;
         req_headers := Some [("Accept-Language", "pl-PL,pl;q=0.9");
                              ("Content-Type", "application/x-www-form-urlencoded")];
         req_cookies := Some [("A", "1"); ("B", "2")];
         req_payload := FormData ("NF_WID=HistoriaPojazdu:" +:+ str_int 1790742856439) |} ]
  ∧ clock_reads (authenticate_session 0%nat (status_world 503 [("A", "1"); ("B", "2")])).2
    = S (clock_reads (status_world 503 [("A", "1"); ("B", "2")])).
Proof.
  apply (authenticate_session_one_post (status_world 503 [("A", "1"); ("B", "2")]) 0%nat);
    reflexivity.
Defined.

Lemma authenticate_session_dangling w session ms :
  heap w !! session = None →
  milliseconds (clock w (clock_reads w)) = Returns ms →
  authenticate_session session w = (Raises SystemError, tick w).
Proof.
  intros Hl Hms. unfold authenticate_session.
  rewrite bind_run, get_current_time_run, Hms.
  rewrite bind_run. unfold s_post, send. rewrite bind_run.
  unfold cookies_arg. rewrite bind_run. unfold load.
  cbn [tick heap]. by rewrite Hl.
Qed.

(** X4. The authenticator works on the caller's dict and on no other:
    every other dict object is after the call as it was before, whatever
    the clock and the server do. *)
Theorem authenticate_session_other_dicts w session l :
  l ≠ session →
  heap (authenticate_session session w).2 !! l = heap w !! l.
Proof.
  intros Hne.
  destruct (milliseconds (clock w (clock_reads w))) as [ms|e] eqn:Hms.
  2:{ by rewrite (authenticate_session_clock_raises _ _ e). }
  destruct (heap w !! session) as [old|] eqn:Hl.
  2:{ by rewrite (authenticate_session_dangling _ _ ms). }
  destruct (Z.eq_dec (status_code (server w (sent w) (authenticate_request old ms))) 200)
    as [Hst|Hst].
  - rewrite (authenticate_session_200 _ _ old ms) by done.
    cbn [snd set_heap heap]. by rewrite lookup_insert_ne.
  - by rewrite (authenticate_session_non200 _ _ old ms).
Qed.

Lemma authenticate_session_other_dicts_witness :
  heap (authenticate_session 0%nat merge_world).2 !! 1%nat = heap merge_world !! 1%nat.
Proof.
  apply (authenticate_session_other_dicts merge_world 0%nat 1%nat). lia.
Defined.

(** *** Where the merged cookies sit *)

Lemma dict_mem_set {V} k k' (v : V) d :
  dict_mem k' (dict_set k v d) = String.eqb k' k || dict_mem k' d.
Proof.
  unfold dict_mem. rewrite dict_get_set. by destruct (String.eqb k' k).
Qed.

Lemma dict_keys_set {V} k (v : V) d :
  dict_keys (dict_set k v d)
  = if dict_mem k d then dict_keys d else (dict_keys d ++ [k])%list.
Proof.
  destruct (dict_mem k d) eqn:Hm; [by apply dict_keys_set_present|].
  unfold dict_mem, dict_keys in *.
  induction d as [|[k' v'] d IH]; [done|]. cbn [dict_get dict_set] in *.
  destruct (String.eqb k k'); [done|]. cbn [map fst app]. by rewrite IH.
Qed.

Lemma filter_ext_elem {A} (P Q : A → Prop)
    `{∀ x, Decision (P x)} `{∀ x, Decision (Q x)} (l : list A) :
  (∀ x, x ∈ l → (P x ↔ Q x)) → filter P l = filter Q l.
Proof.
  induction l as [|x l IH]; intros Hext; [done|].
  assert (Hx : P x ↔ Q x) by (apply Hext, elem_of_cons; by left).
  assert (Hl : filter P l = filter Q l).
  { apply IH. intros y Hy. apply Hext, elem_of_cons. by right. }
  destruct (decide (P x)) as [HP|HP].
  - rewrite !filter_cons_True by tauto. by rewrite Hl.
  - rewrite !filter_cons_False by tauto. done.
Qed.

(** Copying distinct keys keeps the keys that were there where they were
    and appends the others in the order they come. *)
Lemma copy_keys_keys {V} (new : dict V) ks :
  NoDup ks → (∀ k, k ∈ ks → is_Some (dict_get k new)) →
  ∀ d, dict_keys (copy_keys new ks d)
       = (dict_keys d ++ filter (λ k, dict_mem k d = false) ks)%list.
Proof.
  unfold copy_keys. induction ks as [|k ks IH]; intros Hnd Hin d; cbn [fold_left].
  - by rewrite filter_nil, app_nil_r.
  - apply NoDup_cons in Hnd as [Hk Hnd].
    destruct (Hin k) as [v Hv]; [apply elem_of_cons; by left|]. rewrite Hv.
    rewrite IH; [|done|intros k' Hk'; apply Hin, elem_of_cons; by right].
    rewrite dict_keys_set.
    assert (Hext : filter (λ k0, dict_mem k0 (dict_set k v d) = false) ks
                   = filter (λ k0, dict_mem k0 d = false) ks).
    { apply filter_ext_elem. intros k' Hk'. rewrite dict_mem_set.
      destruct (String.eqb_spec k' k) as [->|]; [done|]. done. }
    rewrite Hext. destruct (dict_mem k d) eqn:Hm.
    + rewrite filter_cons_False; [done|]. by rewrite Hm.
    + rewrite filter_cons_True by done. by rewrite <- app_assoc.
Qed.

(** X5. A merge drops no cookie and moves none: after a 200 answer the
    old cookie names stand where they stood, followed by the names the
    response adds, in the order of the response. *)
Theorem authenticate_session_key_order w session old ms :
  heap w !! session = Some old →
  milliseconds (clock w (clock_reads w)) = Returns ms →
  let r := server w (sent w) (authenticate_request old ms) in
  status_code r = 200 →
  NoDup (dict_keys (resp_cookies r)) →
  ∃ merged,
    heap (authenticate_session session w).2 !! session = Some merged
    ∧ dict_keys merged
      = (dict_keys old
         ++ filter (λ k, dict_mem k old = false) (dict_keys (resp_cookies r)))%list.
Proof.
  intros Hl Hms r Hst Hnd.
  rewrite (authenticate_session_200 _ _ old ms) by done. fold r.
  eexists. cbn [snd set_heap heap]. split; [apply lookup_insert_eq|].
  apply copy_keys_keys; [done|]. intros k Hk. by apply dict_get_keys.
Qed.

Lemma authenticate_session_key_order_witness :
  ∃ merged,
    heap (authenticate_session 0%nat merge_world).2 !! 0%nat = Some merged
    ∧ dict_keys merged
      = (dict_keys [("A", "1"); ("B", "2")]
         ++ filter (λ k, dict_mem k [("A", "1"); ("B", "2")] = false)
              (dict_keys [("B", "3"); ("C", "4")]))%list.
Proof.
  apply (authenticate_session_key_order merge_world 0%nat
           [("A", "1"); ("B", "2")] 1790742856439); try reflexivity.
  apply (bool_decide_unpack _). vm_compute. exact I.
Defined.

(** Copying values a dict already has changes nothing. *)
Lemma copy_keys_fixed {V} (new : dict V) ks d :
  (∀ k v, k ∈ ks → dict_get k new = Some v → dict_get k d = Some v) →
  copy_keys new ks d = d.
Proof.
  unfold copy_keys. induction ks as [|k ks IH]; intros Hsame; cbn [fold_left]; [done|].
  assert (Hk : match dict_get k new with
               | Some v => dict_set k v d
               | None => d
               end = d).
  { destruct (dict_get k new) as [v|] eqn:Hv; [|done].
    apply dict_set_same, Hsame; [apply elem_of_cons; by left|done]. }
  rewrite Hk. apply IH. intros k' v Hk'. apply Hsame, elem_of_cons. by right.
Qed.

(** X6. Merging is idempotent: when a session is authenticated a second
    time and the response sets the same cookies as the first, the cookie
    dict after the second call is the one after the first. *)
Theorem authenticate_session_twice_same_cookies w session old ms1 ms2 :
  heap w !! session = Some old →
  milliseconds (clock w (clock_reads w)) = Returns ms1 →
  milliseconds (clock w (S (clock_reads w))) = Returns ms2 →
  let rq1 := authenticate_request old ms1 in
  let r1 := server w (sent w) rq1 in
  status_code r1 = 200 →
  ∀ merged,
    heap (authenticate_session session w).2 !! session = Some merged →
    let r2 := server w (sent w ++ [rq1]) (authenticate_request merged ms2) in
    status_code r2 = 200 →
    resp_cookies r2 = resp_cookies r1 →
    ∃ id1 id2 w2,
      (p1 ← authenticate_session session;
       p2 ← authenticate_session p1.1;
       ret (p1.2, p2.2)) w = (Returns (id1, id2), w2)
      ∧ heap w2 !! session = Some merged
      ∧ heap w2 = heap (authenticate_session session w).2.
Proof.
  intros Hl Hms1 Hms2 rq1 r1 Hst1 merged.
  rewrite bind_run, (authenticate_session_200 _ _ old ms1) by done.
  fold rq1 r1. set (w1 := set_heap _ _).
  intros Hmerged r2 Hst2 Hsame. cbn [snd] in *.
  assert (Hm : merged = copy_keys (resp_cookies r1) (dict_keys (resp_cookies r1)) old).
  { unfold w1 in Hmerged. cbn [set_heap heap] in Hmerged.
    rewrite lookup_insert_eq in Hmerged. congruence. }
  cbn [fst]. rewrite bind_run, (authenticate_session_200 w1 session merged ms2);
    [|done|done|done].
  change (server w1 (sent w1) (authenticate_request merged ms2)) with r2.
  rewrite Hsame.
  assert (Hfix : copy_keys (resp_cookies r1) (dict_keys (resp_cookies r1)) merged = merged).
  { apply copy_keys_fixed. intros k v _ Hv. by rewrite Hm, copy_keys_all_get, Hv. }
  rewrite Hfix. eexists _, _, _. split; [reflexivity|].
  cbn [set_heap heap log_call tick]. split; [apply lookup_insert_eq|].
  by apply insert_id.
Qed.

Lemma authenticate_session_twice_same_cookies_witness :
  ∃ id1 id2 w2,
    (p1 ← authenticate_session 0%nat;
     p2 ← authenticate_session p1.1;
     ret (p1.2, p2.2)) merge_world = (Returns (id1, id2), w2)
    ∧ heap w2 !! 0%nat = Some [("A", "1"); ("B", "3"); ("C", "4")]
    ∧ heap w2 = heap (authenticate_session 0%nat merge_world).2.
Proof.
  apply (authenticate_session_twice_same_cookies merge_world 0%nat
           [("A", "1"); ("B", "2")] 1790742856439 1790742856439);
    reflexivity.
Defined.

(** X10. The token a fetch sends after an authentication is the one the
    authentication response set, and the old one only when the response
    set none; with a token in neither, the fetch raises [KeyError] and the
    authentication call is the only one made. *)
Theorem fetch_after_authenticate_token w session old ms reg vin date :
  heap w !! session = Some old →
  milliseconds (clock w (clock_reads w)) = Returns ms →
  let rq := authenticate_request old ms in
  let r := server w (sent w) rq in
  status_code r = 200 →
  let run := (p ← authenticate_session session;
              get_vehicle_data p.1 p.2 reg vin date) w in
  match dict_get "XSRF-TOKEN" (resp_cookies r), dict_get "XSRF-TOKEN" old with
  | Some token, _ | None, Some token =>
      ∃ merged,
        heap run.2 !! session = Some merged
        ∧ calls_during w run.2
          = [rq; fetch_request vehicle_data_url merged token (nfwid_of ms) reg vin date]
  | None, None =>
      run.1 = Raises (KeyError "XSRF-TOKEN") ∧ calls_during w run.2 = [rq]
  end.
Proof.
  intros Hl Hms rq r Hst run. subst run.
  rewrite bind_run, (authenticate_session_200 _ _ old ms) by done.
  fold rq r. set (merged := copy_keys _ _ old). set (w1 := set_heap _ _).
  cbn [fst snd].
  assert (Hl1 : heap w1 !! session = Some merged) by apply lookup_insert_eq.
  assert (Hm : dict_get "XSRF-TOKEN" merged
               = match dict_get "XSRF-TOKEN" (resp_cookies r) with
                 | Some v => Some v
                 | None => dict_get "XSRF-TOKEN" old
                 end) by apply copy_keys_all_get.
  assert (Hsent : ∀ token, dict_get "XSRF-TOKEN" merged = Some token →
            ∃ merged',
              heap (get_vehicle_data session (nfwid_of ms) reg vin date w1).2 !! session
                = Some merged'
              ∧ calls_during w (get_vehicle_data session (nfwid_of ms) reg vin date w1).2
                = [rq; fetch_request vehicle_data_url merged' token (nfwid_of ms)
                         reg vin date]).
  { intros token Htok. exists merged.
    rewrite (get_vehicle_data_sends _ _ merged token) by done.
    split; [done|]. unfold calls_during. cbn [w1 set_heap log_call tick sent].
    by rewrite <- app_assoc, drop_app_length. }
  destruct (dict_get "XSRF-TOKEN" (resp_cookies r)) as [tok|];
    [by apply Hsent|].
  destruct (dict_get "XSRF-TOKEN" old) as [tok|]; [by apply Hsent|].
  unfold get_vehicle_data. rewrite bind_run, (getitem_missing _ _ merged) by done.
  split; [done|]. unfold calls_during. cbn [snd w1 set_heap log_call tick sent].
  by rewrite drop_app_length.
Qed.

Lemma fetch_after_authenticate_token_witness :
  let w := reply_world [("XSRF-TOKEN", "0ld")] [("XSRF-TOKEN", "f3a1")]
             (Some (JObj [])) in
  let run := (p ← authenticate_session 0%nat;
              get_vehicle_data p.1 p.2 "WA12345" "1HGCM82633A004352" "2020-01-01") w in
  ∃ merged,
    heap run.2 !! 0%nat = Some merged
    ∧ calls_during w run.2
      = [authenticate_request [("XSRF-TOKEN", "0ld")] 1790742856439;
         fetch_request vehicle_data_url merged "f3a1" (nfwid_of 1790742856439)
           "WA12345" "1HGCM82633A004352" "2020-01-01"].
Proof.
  apply (fetch_after_authenticate_token
           (reply_world [("XSRF-TOKEN", "0ld")] [("XSRF-TOKEN", "f3a1")] (Some (JObj [])))
           0%nat [("XSRF-TOKEN", "0ld")] 1790742856439
           "WA12345" "1HGCM82633A004352" "2020-01-01"); reflexivity.
Defined.

(** X14. A failed authentication is atomic for every cause of failure, a
    clock reading that does not convert as much as a status other than
    200: whenever the call raises, every cookie dict is as it was. *)
Theorem authenticate_session_failure_keeps_heap w session e w' :
  authenticate_session session w = (Raises e, w') →
  heap w' = heap w.
Proof.
  destruct (milliseconds (clock w (clock_reads w))) as [ms|e0] eqn:Hms.
  2:{ rewrite (authenticate_session_clock_raises _ _ e0) by done. by intros [= _ <-]. }
  destruct (heap w !! session) as [old|] eqn:Hl.
  2:{ rewrite (authenticate_session_dangling _ _ ms) by done. by intros [= _ <-]. }
  destruct (Z.eq_dec (status_code (server w (sent w) (authenticate_request old ms))) 200)
    as [Hst|Hst].
  - by rewrite (authenticate_session_200 _ _ old ms).
  - rewrite (authenticate_session_non200 _ _ old ms) by done. by intros [= _ <-].
Qed.

Lemma authenticate_session_failure_keeps_heap_witness :
  heap (authenticate_session 0%nat
          (set_clock S754_nan (status_world 200 [("A", "1"); ("B", "2")]))).2
  = heap (set_clock S754_nan (status_world 200 [("A", "1"); ("B", "2")])).
Proof.
  apply (authenticate_session_failure_keeps_heap
           (set_clock S754_nan (status_world 200 [("A", "1"); ("B", "2")])) 0%nat
           ValueError). reflexivity.
Defined.

(** ** The fetchers and the shape of the body *)

Lemma prefix_app key post : String.prefix key (key +:+ post) = true.
Proof.
  induction key as [|a key IH]; [by destruct post|].
  change (String a key +:+ post) with (String a (key +:+ post)).
  cbn [String.prefix]. by destruct (Ascii.ascii_dec a a).
Qed.

(** A string occurs in every string built around it. *)
Lemma is_substring_app key pre post : is_substring key (pre +:+ key +:+ post) = true.
Proof.
  induction pre as [|a pre IH].
  - change ("" +:+ key +:+ post) with (key +:+ post).
    destruct (key +:+ post) eqn:E; cbn [is_substring];
      rewrite <- E, prefix_app; done.
  - change (String a pre +:+ key +:+ post) with (String a (pre +:+ key +:+ post)).
    cbn [is_substring]. rewrite IH. apply orb_true_r.
Qed.

(** A fetcher on a 200 answer with a JSON body: the check is [in], on
    whatever value the body is. *)
Lemma get_vehicle_data_200_json w session d xsrf nf_wid reg vin date j :
  heap w !! session = Some d →
  dict_get "XSRF-TOKEN" d = Some xsrf →
  let r := server w (sent w) (fetch_request vehicle_data_url d xsrf nf_wid reg vin date) in
  status_code r = 200 →
  resp_json r = Some j →
  (get_vehicle_data session nf_wid reg vin date w).1
  = match (py_in "technicalData" j w).1 with
    | Returns true => Returns j
    | Returns false => Raises (Exception "Technical data not found in the response.")
    | Raises e => Raises e
    end.
Proof.
  intros Hl Hx r Hst Hj. unfold get_vehicle_data. fetch_start Hl Hx d.
  fold (fetch_request vehicle_data_url d xsrf nf_wid reg vin date). fold r.
  rewrite Hst. cbn [Z.eqb Pos.eqb].
  rewrite bind_run. unfold r_json. rewrite Hj. unfold ret at 1.
  rewrite bind_run.
  destruct j; cbn [py_in]; try done; unfold ret at 1; cbn [fst];
    match goal with |- context [if ?b then _ else _] => by destruct b end.
Qed.

Lemma get_timeline_data_200_json w session d xsrf nf_wid reg vin date j :
  heap w !! session = Some d →
  dict_get "XSRF-TOKEN" d = Some xsrf →
  let r := server w (sent w) (fetch_request timeline_data_url d xsrf nf_wid reg vin date) in
  status_code r = 200 →
  resp_json r = Some j →
  (get_timeline_data session nf_wid reg vin date w).1
  = match (py_in "timelineData" j w).1 with
    | Returns true => Returns j
    | Returns false => Raises (Exception "Timeline data not found in the response.")
    | Raises e => Raises e
    end.
Proof.
  intros Hl Hx r Hst Hj. unfold get_timeline_data. fetch_start Hl Hx d.
  fold (fetch_request timeline_data_url d xsrf nf_wid reg vin date). fold r.
  rewrite Hst. cbn [Z.eqb Pos.eqb].
  rewrite bind_run. unfold r_json. rewrite Hj. unfold ret at 1.
  rewrite bind_run.
  destruct j; cbn [py_in]; try done; unfold ret at 1; cbn [fst];
    match goal with |- context [if ?b then _ else _] => by destruct b end.
Qed.

(** X11. A 200 answer whose body is no JSON makes a fetcher raise
    [ValueError], and one whose body is [null], a boolean or a number makes
    it raise [TypeError]: neither is the [Exception] of the missing key. *)
Theorem fetch_body_not_a_container w session d xsrf nf_wid reg vin date :
  heap w !! session = Some d →
  dict_get "XSRF-TOKEN" d = Some xsrf →
  let rv := server w (sent w) (fetch_request vehicle_data_url d xsrf nf_wid reg vin date) in
  let rt := server w (sent w) (fetch_request timeline_data_url d xsrf nf_wid reg vin date) in
  (status_code rv = 200 →
     (resp_json rv = None →
        (get_vehicle_data session nf_wid reg vin date w).1 = Raises ValueError)
     ∧ (∀ j, resp_json rv = Some j →
          match j with JNull | JBool _ | JNum _ => True | _ => False end →
          (get_vehicle_data session nf_wid reg vin date w).1 = Raises TypeError))
  ∧ (status_code rt = 200 →
     (resp_json rt = None →
        (get_timeline_data session nf_wid reg vin date w).1 = Raises ValueError)
     ∧ (∀ j, resp_json rt = Some j →
          match j with JNull | JBool _ | JNum _ => True | _ => False end →
          (get_timeline_data session nf_wid reg vin date w).1 = Raises TypeError)).
Proof.
  intros Hl Hx rv rt. split; intros Hst; split.
  - intros Hj. unfold get_vehicle_data. fetch_start Hl Hx d.
    fold (fetch_request vehicle_data_url d xsrf nf_wid reg vin date). fold rv.
    rewrite Hst. cbn [Z.eqb Pos.eqb]. rewrite bind_run. unfold r_json. by rewrite Hj.
  - intros j Hj Hscalar.
    rewrite (get_vehicle_data_200_json _ _ d xsrf _ _ _ _ j) by done.
    by destruct j.
  - intros Hj. unfold get_timeline_data. fetch_start Hl Hx d.
    fold (fetch_request timeline_data_url d xsrf nf_wid reg vin date). fold rt.
    rewrite Hst. cbn [Z.eqb Pos.eqb]. rewrite bind_run. unfold r_json. by rewrite Hj.
  - intros j Hj Hscalar.
    rewrite (get_timeline_data_200_json _ _ d xsrf _ _ _ _ j) by done.
    by destruct j.
Qed.

Lemma fetch_body_not_a_container_witness :
  (get_vehicle_data 0%nat "HistoriaPojazdu:1" "WA12345" "1HGCM82633A004352" "2020-01-01"
     (reply_world [("XSRF-TOKEN", "f3a1")] [] None)).1 = Raises ValueError
  ∧ (get_vehicle_data 0%nat "HistoriaPojazdu:1" "WA12345" "1HGCM82633A004352" "2020-01-01"
       (reply_world [("XSRF-TOKEN", "f3a1")] [] (Some JNull))).1 = Raises TypeError
  ∧ (get_timeline_data 0%nat "HistoriaPojazdu:1" "WA12345" "1HGCM82633A004352" "2020-01-01"
       (reply_world [("XSRF-TOKEN", "f3a1")] [] None)).1 = Raises ValueError
  ∧ (get_timeline_data 0%nat "HistoriaPojazdu:1" "WA12345" "1HGCM82633A004352" "2020-01-01"
       (reply_world [("XSRF-TOKEN", "f3a1")] [] (Some (JNum "7")))).1 = Raises TypeError.
Proof.
  destruct (fetch_body_not_a_container (reply_world [("XSRF-TOKEN", "f3a1")] [] None)
              0%nat [("XSRF-TOKEN", "f3a1")] "f3a1" "HistoriaPojazdu:1" "WA12345"
              "1HGCM82633A004352" "2020-01-01" eq_refl eq_refl) as [Hv Ht].
  destruct (fetch_body_not_a_container
              (reply_world [("XSRF-TOKEN", "f3a1")] [] (Some JNull))
              0%nat [("XSRF-TOKEN", "f3a1")] "f3a1" "HistoriaPojazdu:1" "WA12345"
              "1HGCM82633A004352" "2020-01-01" eq_refl eq_refl) as [Hv' _].
  destruct (fetch_body_not_a_container
              (reply_world [("XSRF-TOKEN", "f3a1")] [] (Some (JNum "7")))
              0%nat [("XSRF-TOKEN", "f3a1")] "f3a1" "HistoriaPojazdu:1" "WA12345"
              "1HGCM82633A004352" "2020-01-01" eq_refl eq_refl) as [_ Ht'].
  split; [apply (proj1 (Hv eq_refl) eq_refl)|].
  split; [apply (proj2 (Hv' eq_refl) JNull eq_refl I)|].
  split; [apply (proj1 (Ht eq_refl) eq_refl)|].
  apply (proj2 (Ht' eq_refl) (JNum "7") eq_refl I).
Defined.

(** X12. The presence check is Python's [in] on whatever the body is, not
    a lookup in an object: a 200 answer whose body is a JSON string with
    the key name somewhere inside it, or a JSON array with the key name as
    one of its items, passes the check and is returned as the result. *)
Theorem fetch_accepts_string_and_array_bodies w session d xsrf nf_wid reg vin date :
  heap w !! session = Some d →
  dict_get "XSRF-TOKEN" d = Some xsrf →
  let rv := server w (sent w) (fetch_request vehicle_data_url d xsrf nf_wid reg vin date) in
  let rt := server w (sent w) (fetch_request timeline_data_url d xsrf nf_wid reg vin date) in
  (status_code rv = 200 →
     (∀ pre post, resp_json rv = Some (JStr (pre +:+ "technicalData" +:+ post)) →
        (get_vehicle_data session nf_wid reg vin date w).1
        = Returns (JStr (pre +:+ "technicalData" +:+ post)))
     ∧ (∀ items, resp_json rv = Some (JArr items) → JStr "technicalData" ∈ items →
        (get_vehicle_data session nf_wid reg vin date w).1 = Returns (JArr items)))
  ∧ (status_code rt = 200 →
     (∀ pre post, resp_json rt = Some (JStr (pre +:+ "timelineData" +:+ post)) →
        (get_timeline_data session nf_wid reg vin date w).1
        = Returns (JStr (pre +:+ "timelineData" +:+ post)))
     ∧ (∀ items, resp_json rt = Some (JArr items) → JStr "timelineData" ∈ items →
        (get_timeline_data session nf_wid reg vin date w).1 = Returns (JArr items))).
Proof.
  intros Hl Hx rv rt.
  assert (Harr : ∀ key items, JStr key ∈ items →
            existsb (λ x, match x with JStr s => String.eqb key s | _ => false end) items
            = true).
  { intros key items Hin. apply existsb_exists. exists (JStr key).
    split; [by apply list_elem_of_In|apply String.eqb_refl]. }
  split; intros Hst; split.
  - intros pre post Hj.
    rewrite (get_vehicle_data_200_json _ _ d xsrf _ _ _ _ _ Hl Hx Hst Hj).
    cbn [py_in ret fst]. by rewrite is_substring_app.
  - intros items Hj Hin.
    rewrite (get_vehicle_data_200_json _ _ d xsrf _ _ _ _ _ Hl Hx Hst Hj).
    cbn [py_in ret fst]. by rewrite Harr.
  - intros pre post Hj.
    rewrite (get_timeline_data_200_json _ _ d xsrf _ _ _ _ _ Hl Hx Hst Hj).
    cbn [py_in ret fst]. by rewrite is_substring_app.
  - intros items Hj Hin.
    rewrite (get_timeline_data_200_json _ _ d xsrf _ _ _ _ _ Hl Hx Hst Hj).
    cbn [py_in ret fst]. by rewrite Harr.
Qed.

Lemma fetch_accepts_string_and_array_bodies_witness :
  (get_vehicle_data 0%nat "HistoriaPojazdu:1" "WA12345" "1HGCM82633A004352" "2020-01-01"
     (reply_world [("XSRF-TOKEN", "f3a1")] []
        (Some (JStr ("no " +:+ "technicalData" +:+ " for this vehicle"))))).1
  = Returns (JStr ("no " +:+ "technicalData" +:+ " for this vehicle"))
  ∧ (get_timeline_data 0%nat "HistoriaPojazdu:1" "WA12345" "1HGCM82633A004352"
       "2020-01-01"
       (reply_world [("XSRF-TOKEN", "f3a1")] []
          (Some (JArr [JStr "error"; JStr "timelineData"])))).1
    = Returns (JArr [JStr "error"; JStr "timelineData"]).
Proof.
  split.
  - refine (proj1 (proj1 (fetch_accepts_string_and_array_bodies
              (reply_world [("XSRF-TOKEN", "f3a1")] []
                 (Some (JStr ("no " +:+ "technicalData" +:+ " for this vehicle"))))
              0%nat [("XSRF-TOKEN", "f3a1")] "f3a1" "HistoriaPojazdu:1" "WA12345"
              "1HGCM82633A004352" "2020-01-01" eq_refl eq_refl) eq_refl)
              "no " " for this vehicle" eq_refl).
  - refine (proj2 (proj2 (fetch_accepts_string_and_array_bodies
              (reply_world [("XSRF-TOKEN", "f3a1")] []
                 (Some (JArr [JStr "error"; JStr "timelineData"])))
              0%nat [("XSRF-TOKEN", "f3a1")] "f3a1" "HistoriaPojazdu:1" "WA12345"
              "1HGCM82633A004352" "2020-01-01" eq_refl eq_refl) eq_refl)
              [JStr "error"; JStr "timelineData"] eq_refl _).
    apply elem_of_cons. right. apply elem_of_cons. by left.
Defined.

(** ** How close the millisecond clock is *)

(** X13. For a clock reading [t = m * 2^e] below [2^41] seconds, the
    millisecond value [get_current_time] returns is not negative and less
    than one millisecond away from [1000 * t]; both are counted here in
    units of [2^-1117] milliseconds, in which they are whole numbers. *)
Theorem get_current_time_within_one_millisecond w m e :
  clock w (clock_reads w) = S754_finite false m e →
  valid_binary 53 1024 (S754_finite false m e) = true →
  e ≤ -12 →
  ∃ ms,
    get_current_time w = (Returns ms, tick w)
    ∧ 0 ≤ ms
    ∧ Z.abs (ms * 2 ^ 1117 - 1000 * (Z.pos m * 2 ^ (e + 1117))) < 2 ^ 1117.
Proof.
  intros Ht Hv He. rewrite get_current_time_run, Ht.
  pose proof Hv as Hv'. apply valid_exponent in Hv' as (Hlo & Hm & _).
  destruct (milliseconds_returns m e ltac:(lia) Hm) as [ms Hms].
  exists ms. split; [by rewrite Hms|].
  by apply milliseconds_close.
Qed.

Lemma get_current_time_within_one_millisecond_witness :
  ∃ ms,
    get_current_time merge_world = (Returns ms, tick merge_world)
    ∧ 0 ≤ ms
    ∧ Z.abs (ms * 2 ^ 1117 - 1000 * (7510919925734553 * 2 ^ (-22 + 1117))) < 2 ^ 1117.
Proof.
  apply (get_current_time_within_one_millisecond merge_world 7510919925734553 (-22)).
  - reflexivity.
  - reflexivity.
  - lia.
Defined.

(** ** Initiate, then authenticate *)

(** X15. After an initiation and an authentication that were both
    answered with 200, the session's cookie dict is the new one the
    initiator made; the authentication call carried the cookies of the
    first response, and the dict now reads, name by name, as the second
    response where it sets the name and as the first response otherwise. *)
Theorem initiate_then_authenticate_cookies w ms :
  milliseconds (clock w (clock_reads w)) = Returns ms →
  let r1 := server w (sent w) create_request in
  let rq2 := authenticate_request (resp_cookies r1) ms in
  let r2 := server w (sent w ++ [create_request]) rq2 in
  status_code r1 = 200 →
  status_code r2 = 200 →
  ∃ l cookies w',
    (s ← create_session; authenticate_session s) w = (Returns (l, nfwid_of ms), w')
    ∧ heap w !! l = None
    ∧ heap w' !! l = Some cookies
    ∧ calls_during w w' = [create_request; rq2]
    ∧ ∀ k, dict_get k cookies
           = match dict_get k (resp_cookies r2) with
             | Some v => Some v
             | None => dict_get k (resp_cookies r1)
             end.
Proof.
  intros Hms r1 rq2 r2 Hst1 Hst2.
  rewrite bind_run, create_session_200 by done. fold r1.
  set (l := fresh (dom (heap w))). set (w1 := set_heap _ _).
  assert (Hl1 : heap w1 !! l = Some (resp_cookies r1)) by apply lookup_insert_eq.
  rewrite (authenticate_session_200 w1 l (resp_cookies r1) ms); [|done|done|done].
  change (server w1 (sent w1) (authenticate_request (resp_cookies r1) ms)) with r2.
  eexists l, _, _. split; [reflexivity|].
  split; [apply not_elem_of_dom, is_fresh|].
  cbn [set_heap heap]. split; [apply lookup_insert_eq|]. split.
  - unfold calls_during. cbn [w1 set_heap log_call tick sent].
    by rewrite <- app_assoc, drop_app_length.
  - intros k. apply copy_keys_all_get.
Qed.

Lemma initiate_then_authenticate_cookies_witness :
  ∃ l cookies w',
    (s ← create_session; authenticate_session s) portal_world
      = (Returns (l, nfwid_of 1790742856439), w')
    ∧ heap portal_world !! l = None
    ∧ heap w' !! l = Some cookies
    ∧ calls_during portal_world w'
      = [create_request; authenticate_request [("NFJSESSIONID", "9c2e")] 1790742856439]
    ∧ ∀ k, dict_get k cookies
           = match dict_get k [("XSRF-TOKEN", "f3a1")] with
             | Some v => Some v
             | None => dict_get k [("NFJSESSIONID", "9c2e")]
             end.
Proof.
  apply (initiate_then_authenticate_cookies portal_world 1790742856439); reflexivity.
Defined.
